(** * SQL Server check: connection management (connection.py)

    A shallow embedding of [datadog_checks/sqlserver/connection.py] and the
    properties of its access-info resolver, connector selection,
    connection-string builders, connection cache and database-existence
    probe.

    Conventions of the embedding.
    - A Python value that is either [None] or a [str] is an [option string];
      a [str] is the [string] of its bytes; [str.lower] and [str.upper] are
      given to the model.
    - The instance configuration (a [dict]) is a [gmap string string] for its
      string fields, [instance.get(k)] being the lookup of [k], with the
      numeric [command_timeout] kept apart.
    - The mutable attributes of a [Connection] object ([_conns],
      [existing_databases]) and everything the object does to the outside
      (log records, service checks, driver calls) are threaded through an
      explicit state, the latter as a trace of events.
    - The driver modules are outside the program: a physical connection
      handle carries the outcome of its [close()] and [cursor()] calls, a
      cursor the outcome of [execute], of the row iteration and of [close()],
      and [connect] is a function given to the model. The logger and the
      service check handler record their call and return. *)

From Stdlib Require Import Ascii String.
From stdpp Require Import gmap strings list fin_maps pretty.

Local Open Scope stdpp_scope.

(** ** Python strings *)

Module PyStr.

(** [s.startswith(p)] *)
Fixpoint startswith (p s : string) : bool :=
  match p, s with
  | EmptyString, _ => true
  | String _ _, EmptyString => false
  | String a p', String b s' => Ascii.eqb a b && startswith p' s'
  end.

(** [p in s] *)
Fixpoint contains (p s : string) : bool :=
  match s with
  | EmptyString => startswith p EmptyString
  | String _ s' => startswith p s || contains p s'
  end.

(** [s.count(c)] for a one-character [c]. *)
Fixpoint count (c : ascii) (s : string) : nat :=
  match s with
  | EmptyString => 0
  | String a s' => (if Ascii.eqb a c then 1 else 0) + count c s'
  end.

(** [c in s] for a one-character [c]. *)
Fixpoint mem (c : ascii) (s : string) : bool :=
  match s with
  | EmptyString => false
  | String a s' => Ascii.eqb a c || mem c s'
  end.

(** [s.replace(old, new)] for a non-empty [old]: the scan goes left to
    right; at a position where [old] starts, [new] is emitted and the scan
    resumes after the occurrence ([skip] counts the characters of the
    occurrence still to pass over). *)
Fixpoint replace_from (old new : string) (skip : nat) (s : string) : string :=
  match s with
  | EmptyString => EmptyString
  | String c s' =>
      match skip with
      | S k => replace_from old new k s'
      | O =>
          if startswith old s
          then new +:+ replace_from old new (String.length old - 1) s'
          else String c (replace_from old new 0 s')
      end
  end.

(** [s.replace('', new)]: [new] before every character and at the end. *)
Fixpoint interleave (new s : string) : string :=
  match s with
  | EmptyString => new
  | String c s' => new +:+ String c (interleave new s')
  end.

Definition replace (old new s : string) : string :=
  match old with
  | EmptyString => interleave new s
  | String _ _ => replace_from old new 0 s
  end.

(** [s.split(sep)] for a one-character [sep]. *)
Fixpoint split (sep : ascii) (s : string) : list string :=
  match s with
  | EmptyString => [EmptyString]
  | String c s' =>
      if Ascii.eqb c sep then EmptyString :: split sep s'
      else match split sep s' with
           | h :: t => String c h :: t
           | [] => [String c EmptyString]
           end
  end.

Definition lower_ascii (c : ascii) : ascii :=
  let n := nat_of_ascii c in
  if (65 <=? n)%nat && (n <=? 90)%nat then ascii_of_nat (n + 32) else c.

Definition upper_ascii (c : ascii) : ascii :=
  let n := nat_of_ascii c in
  if (97 <=? n)%nat && (n <=? 122)%nat then ascii_of_nat (n - 32) else c.

Fixpoint map_ascii (f : ascii -> ascii) (s : string) : string :=
  match s with
  | EmptyString => EmptyString
  | String c s' => String (f c) (map_ascii f s')
  end.

(** The case mappings of ASCII text: what [s.lower()] and [s.upper()] are on
    a [str] of ASCII characters. *)
Definition lower : string -> string := map_ascii lower_ascii.
Definition upper : string -> string := map_ascii upper_ascii.

(** [s.isascii()] *)
Fixpoint is_ascii (s : string) : bool :=
  match s with
  | EmptyString => true
  | String c s' => (nat_of_ascii c <? 128)%nat && is_ascii s'
  end.

(** [x in l] for a list of strings. *)
Definition in_list (x : string) (l : list string) : bool :=
  bool_decide (x ∈ l).

End PyStr.

(** [str.lower] and [str.upper] are the Unicode case mappings of the
    interpreter, outside the program: the model takes them as given, with
    the one thing it uses of them, that on ASCII text they are the ASCII
    mappings. *)
Class CaseMapping := {
  str_lower : string -> string;
  str_upper : string -> string;
  str_lower_ascii : forall s, PyStr.is_ascii s = true -> str_lower s = PyStr.lower s;
  str_upper_ascii : forall s, PyStr.is_ascii s = true -> str_upper s = PyStr.upper s
}.

(** ** Python values, exceptions and the driver boundary *)

(** ['{}'.format(v)] for [v] a [str] or [None]. *)
Definition fmt (v : option string) : string :=
  match v with
  | Some s => s
  | None => "None"
  end.

(** Truth value of a [str] or [None]: [None] and [''] are false. *)
Definition truthy (v : option string) : bool :=
  match v with
  | Some (String _ _) => true
  | _ => false
  end.

Definition squote : ascii := "039"%char.
Definition dquote : ascii := "034"%char.
Definition backslash : ascii := "092"%char.
Definition newline : string := String "010"%char EmptyString.

Fixpoint escape (q : ascii) (s : string) : string :=
  match s with
  | EmptyString => EmptyString
  | String c s' =>
      if Ascii.eqb c backslash || Ascii.eqb c q then String backslash (String c (escape q s'))
      else if Ascii.eqb c "010"%char then String backslash (String "n"%char (escape q s'))
      else if Ascii.eqb c "013"%char then String backslash (String "r"%char (escape q s'))
      else if Ascii.eqb c "009"%char then String backslash (String "t"%char (escape q s'))
      else String c (escape q s')
  end.

(** [repr(s)] for a [str] of printable characters: single quotes, unless the
    text has a single quote and no double quote. *)
Definition str_repr (s : string) : string :=
  let q := if PyStr.mem squote s && negb (PyStr.mem dquote s) then dquote else squote in
  String q (escape q s +:+ String q EmptyString).

(** The exceptions of the module: its own [SQLConnectionError], the built-in
    ones the code can provoke, and whatever a driver raises, known by its
    [repr]. *)
Inductive exn :=
| SQLConnectionError (message : string)
| ValueError (message : string)
| AttributeError (message : string)
| KeyError (key : string)
| DriverError (repr : string).

(** [repr(e)] *)
Definition exn_repr (e : exn) : string :=
  match e with
  | SQLConnectionError m => "SQLConnectionError(" +:+ str_repr m +:+ ")"
  | ValueError m => "ValueError(" +:+ str_repr m +:+ ")"
  | AttributeError m => "AttributeError(" +:+ str_repr m +:+ ")"
  | KeyError k => "KeyError(" +:+ str_repr k +:+ ")"
  | DriverError r => r
  end.

(** Outcome of a call into a driver: it returns, or raises an exception with
    the given [repr]. *)
Inductive outcome (A : Type) :=
| Returns (a : A)
| Throws (repr : string).
Arguments Returns {A} a.
Arguments Throws {A} repr.

(** A driver cursor: [execute(sql)], the [name] of the rows the iteration
    yields and how the iteration ends, and [close()]. *)
Record cursor := {
  cursor_execute : outcome unit;
  cursor_rows : list string;
  cursor_rows_end : outcome unit;
  cursor_close : outcome unit
}.

(** A physical connection handle: [close()] and [cursor()]. *)
Record rawconn := {
  conn_id : nat;
  conn_close : outcome unit;
  conn_cursor : outcome cursor
}.

(** A driver module, when it could be imported: its [connect], from the
    connection string and the timeout. *)
Definition driver_module : Type := option (string -> Z -> outcome rawconn).

Inductive status := OK | CRITICAL.
Inductive level := DEBUG | INFO | WARNING | ERROR.

(** An argument of a log call: a [str] or [None], or an exception. *)
Inductive log_arg :=
| Str (v : option string)
| Exc (e : exn).

(** What the object does to the outside. *)
Inductive event :=
| Log (lvl : level) (format : string) (args : list log_arg)
| ServiceCheck (s : status) (host database : option string) (message : option string)
| Connect (connector cs : string) (timeout : Z)
| ConnClose (c : rawconn)
| ConnCursor (c : rawconn)
| Execute (sql : string)
| CursorClose (c : cursor).

(** ** The [Connection] object *)

(** The instance configuration: string fields, and [command_timeout], the one
    numeric field. *)
Record Config := {
  fields : gmap string string;
  command_timeout : option Z
}.

Record Connection := {
  instance : Config;
  _conns : gmap string rawconn;
  timeout : Z;
  existing_databases : option (gmap string bool);
  adoprovider : string;
  valid_connectors : list string;
  connector : string
}.

Record AccessInfo := {
  dsn : option string;
  host : option string;
  username : option string;
  password : option string;
  database : option string;
  driver : option string
}.

Record world := {
  self : Connection;
  trace : list event
}.

Definition DATABASE_EXISTS_QUERY : string := "select name from sys.databases;".
Definition DEFAULT_COMMAND_TIMEOUT : Z := 5.
Definition DEFAULT_DATABASE : string := "master".
Definition DEFAULT_DRIVER : string := "SQL Server".
Definition DEFAULT_DB_KEY : string := "database".
Definition PROC_GUARD_DB_KEY : string := "proc_only_if_database".
Definition valid_adoproviders : list string := ["SQLOLEDB"; "MSOLEDBSQL"; "SQLNCLI11"].
Definition default_adoprovider : string := "SQLOLEDB".
Definition PASSWORD_MASK : string := "******".

(** [instance.get(k)]; the key [None] is never configured. *)
Definition instance_get (c : Config) (k : option string) : option string :=
  match k with
  | Some k => fields c !! k
  | None => None
  end.

(** ** State and exceptions *)

Inductive result (A : Type) :=
| Return (a : A)
| Raise (e : exn).
Arguments Return {A} a.
Arguments Raise {A} e.

Definition M (A : Type) : Type := world -> result A * world.

Definition ret {A} (a : A) : M A := fun w => (Return a, w).

Definition bind {A B} (m : M A) (k : A -> M B) : M B :=
  fun w =>
    match m w with
    | (Return a, w') => k a w'
    | (Raise e, w') => (Raise e, w')
    end.

Definition raise {A} (e : exn) : M A := fun w => (Raise e, w).

Notation "x <- m ;; k" := (bind m (fun x => k))
  (at level 100, m at next level, right associativity).
Notation "m ;;; k" := (bind m (fun _ => k))
  (at level 100, right associativity).

(** [try: m except Exception as e: h e] *)
Definition try_except {A} (m : M A) (h : exn -> M A) : M A :=
  fun w =>
    match m w with
    | (Return a, w') => (Return a, w')
    | (Raise e, w') => h e w'
    end.

(** [try: m finally: f] *)
Definition try_finally {A} (m : M A) (f : M unit) : M A :=
  fun w =>
    match m w with
    | (r, w') =>
        match f w' with
        | (Return _, w'') => (r, w'')
        | (Raise e, w'') => (Raise e, w'')
        end
    end.

Definition get_self : M Connection := fun w => (Return (self w), w).

Definition emit (e : event) : M unit :=
  fun w => (Return tt, {| self := self w; trace := trace w ++ [e] |}).

Definition log (lvl : level) (format : string) (args : list log_arg) : M unit :=
  emit (Log lvl format args).

Definition service_check_handler (s : status) (h d : option string)
    (message : option string) : M unit :=
  emit (ServiceCheck s h d message).

(** The object with [_conns], respectively [existing_databases], assigned. *)
Definition with_conns (conns : gmap string rawconn) (c : Connection) : Connection :=
  {| instance := instance c; _conns := conns; timeout := timeout c;
     existing_databases := existing_databases c; adoprovider := adoprovider c;
     valid_connectors := valid_connectors c; connector := connector c |}.

Definition with_existing_databases (e : option (gmap string bool)) (c : Connection)
    : Connection :=
  {| instance := instance c; _conns := _conns c; timeout := timeout c;
     existing_databases := e; adoprovider := adoprovider c;
     valid_connectors := valid_connectors c; connector := connector c |}.

Definition set_conns (conns : gmap string rawconn) : M unit :=
  fun w => (Return tt, {| self := with_conns conns (self w); trace := trace w |}).

Definition set_existing_databases (e : option (gmap string bool)) : M unit :=
  fun w => (Return tt, {| self := with_existing_databases e (self w); trace := trace w |}).

(** A call into a driver object. *)
Definition call {A} (ev : event) (o : outcome A) : M A :=
  emit ev ;;;
  match o with
  | Returns a => ret a
  | Throws r => raise (DriverError r)
  end.

(** [instance[k]] *)
Definition instance_item (c : Config) (k : string) : M string :=
  match fields c !! k with
  | Some v => ret v
  | None => raise (KeyError k)
  end.

(** ** The methods of [Connection] *)

Section Methods.

Context {cm : CaseMapping}.

(** The two driver modules, [None] when the import failed. *)
Variables adodbapi pyodbc : driver_module.

Definition __init__ (init_config : gmap string string) (instance_config : Config) : world :=
  let timeout := default DEFAULT_COMMAND_TIMEOUT (command_timeout instance_config) in
  let valid_connectors := [] in
  let valid_connectors :=
    if adodbapi is Some _ then valid_connectors ++ ["adodbapi"] else valid_connectors in
  let valid_connectors :=
    if pyodbc is Some _ then valid_connectors ++ ["odbc"] else valid_connectors in
  let connector := default "adodbapi" (init_config !! "connector") in
  let '(connector, log1) :=
    if negb (PyStr.in_list (str_lower connector) valid_connectors)
    then ("adodbapi",
          [Log ERROR "Invalid database connector %s, defaulting to adodbapi"
               [Str (Some connector)]])
    else (connector, []) in
  let adoprovider := default default_adoprovider (init_config !! "adoprovider") in
  let '(adoprovider, log2) :=
    if negb (PyStr.in_list (str_upper adoprovider) valid_adoproviders)
    then (default_adoprovider,
          [Log ERROR "Invalid ADODB provider string %s, defaulting to %s"
               [Str (Some adoprovider); Str (Some default_adoprovider)]])
    else (adoprovider, []) in
  {| self := {| instance := instance_config; _conns := ∅; timeout := timeout;
                existing_databases := None; adoprovider := adoprovider;
                valid_connectors := valid_connectors; connector := connector |};
     trace := log1 ++ log2 ++ [Log DEBUG "Connection initialized." []] |}.

Definition get_connector : M string :=
  self <- get_self ;;
  let c := default (connector self) (fields (instance self) !! "connector") in
  if negb (String.eqb c (connector self)) then
    if negb (PyStr.in_list (str_lower c) (valid_connectors self)) then
      log WARNING "Invalid database connector %s using default %s"
          [Str (Some c); Str (Some (connector self))] ;;;
      ret (connector self)
    else
      h <- instance_item (instance self) "host" ;;
      log DEBUG "Overriding default connector for %s with %s"
          [Str (Some h); Str (Some c)] ;;;
      ret c
  else ret c.

Definition _get_adoprovider : M string :=
  self <- get_self ;;
  let provider := default default_adoprovider (fields (instance self) !! "adoprovider") in
  if negb (String.eqb provider (adoprovider self)) then
    if negb (PyStr.in_list (str_upper provider) valid_adoproviders) then
      log WARNING "Invalid ADO provider %s using default %s"
          [Str (Some provider); Str (Some (adoprovider self))] ;;;
      ret (adoprovider self)
    else
      h <- instance_item (instance self) "host" ;;
      log DEBUG "Overriding default ADO provider for %s with %s"
          [Str (Some h); Str (Some provider)] ;;;
      ret provider
  else ret provider.

Definition _get_access_info (self : Connection) (db_key db_name : option string)
    : AccessInfo :=
  let get := instance_get (instance self) in
  let dsn := get (Some "dsn") in
  let host := get (Some "host") in
  let username := get (Some "username") in
  let password := get (Some "password") in
  let database := match db_name with None => get db_key | Some _ => db_name end in
  let driver := get (Some "driver") in
  if negb (truthy dsn) then
    let host := if negb (truthy host) then Some "127.0.0.1,1433" else host in
    let database := if negb (truthy database) then Some DEFAULT_DATABASE else database in
    let driver := if negb (truthy driver) then Some DEFAULT_DRIVER else driver in
    {| dsn := dsn; host := host; username := username; password := password;
       database := database; driver := driver |}
  else
    {| dsn := dsn; host := host; username := username; password := password;
       database := database; driver := driver |}.

Definition _conn_key (self : Connection) (db_key db_name : option string) : string :=
  let i := _get_access_info self db_key db_name in
  fmt (dsn i) +:+ ":" +:+ fmt (host i) +:+ ":" +:+ fmt (username i) +:+ ":" +:+
  fmt (password i) +:+ ":" +:+ fmt (database i) +:+ ":" +:+ fmt (driver i).

(** [dsn, host, username, password, database, driver = l] *)
Definition unpack6 (l : list string) : M AccessInfo :=
  match l with
  | [a; b; c; d; e; f] =>
      ret {| dsn := Some a; host := Some b; username := Some c; password := Some d;
             database := Some e; driver := Some f |}
  | _ =>
      if decide (length l < 6)%nat then
        raise (ValueError ("not enough values to unpack (expected 6, got "
                           +:+ pretty (length l) +:+ ")"))
      else raise (ValueError "too many values to unpack (expected 6)")
  end.

(** The access info the two builders start from. *)
Definition conn_string_info (db_key conn_key db_name : option string) : M AccessInfo :=
  if truthy conn_key then unpack6 (PyStr.split ":" (fmt conn_key))
  else self <- get_self ;; ret (_get_access_info self db_key db_name).

Definition _conn_string_odbc (db_key conn_key db_name : option string) : M string :=
  i <- conn_string_info db_key conn_key db_name ;;
  let conn_str := "" in
  let conn_str := if truthy (dsn i) then "DSN=" +:+ fmt (dsn i) +:+ ";" else conn_str in
  let conn_str :=
    if truthy (driver i) then conn_str +:+ "DRIVER=" +:+ fmt (driver i) +:+ ";"
    else conn_str in
  let conn_str :=
    if truthy (host i) then conn_str +:+ "Server=" +:+ fmt (host i) +:+ ";"
    else conn_str in
  let conn_str :=
    if truthy (database i) then conn_str +:+ "Database=" +:+ fmt (database i) +:+ ";"
    else conn_str in
  let conn_str :=
    if truthy (username i) then conn_str +:+ "UID=" +:+ fmt (username i) +:+ ";"
    else conn_str in
  log DEBUG "Connection string (before password) %s" [Str (Some conn_str)] ;;;
  let conn_str :=
    if truthy (password i) then conn_str +:+ "PWD=" +:+ fmt (password i) +:+ ";"
    else conn_str in
  ret conn_str.

Definition _conn_string_adodbapi (db_key conn_key db_name : option string) : M string :=
  i <- conn_string_info db_key conn_key db_name ;;
  provider <- _get_adoprovider ;;
  let conn_str :=
    "Provider=" +:+ provider +:+ ";Data Source=" +:+ fmt (host i) +:+
    ";Initial Catalog=" +:+ fmt (database i) +:+ ";" in
  let conn_str :=
    if truthy (username i) then conn_str +:+ "User ID=" +:+ fmt (username i) +:+ ";"
    else conn_str in
  log DEBUG "Connection string (before password) %s" [Str (Some conn_str)] ;;;
  let conn_str :=
    if truthy (password i) then conn_str +:+ "Password=" +:+ fmt (password i) +:+ ";"
    else conn_str in
  let conn_str :=
    if negb (truthy (username i)) && negb (truthy (password i))
    then conn_str +:+ "Integrated Security=SSPI;"
    else conn_str in
  ret conn_str.

Definition get_cursor (db_key db_name : option string) : M cursor :=
  self <- get_self ;;
  let conn_key := _conn_key self db_key db_name in
  match _conns self !! conn_key with
  | None =>
      raise (SQLConnectionError
               ("Cannot find an opened connection for host: " +:+
                fmt (instance_get (instance self) (Some "host"))))
  | Some conn => call (ConnCursor conn) (conn_cursor conn)
  end.

Definition close_cursor (cur : cursor) : M unit :=
  try_except
    (call (CursorClose cur) (cursor_close cur))
    (fun e => log WARNING ("Could not close adodbapi cursor" +:+ newline +:+ "%s") [Exc e]).

(** [module.connect(cs, ...)]; an attribute of [None] when the module is
    missing. *)
Definition connect (name : string) (m : driver_module) (cs : string) (t : Z)
    : M rawconn :=
  match m with
  | Some f => call (Connect name cs t) (f cs t)
  | None =>
      raise (AttributeError
               (String squote "NoneType" +:+ String squote " object has no attribute " +:+
                String squote "connect" +:+ String squote ""))
  end.

Definition open_db_connections (db_key db_name : option string) : M unit :=
  self <- get_self ;;
  let conn_key := _conn_key self db_key db_name in
  let i := _get_access_info self db_key db_name in
  let cs := default "" (instance_get (instance self) (Some "connection_string")) in
  let cs := cs +:+ (if negb (String.eqb cs "") then ";" else "") in
  try_except
    (c <- get_connector ;;
     rawconn <-
       (if String.eqb c "adodbapi" then
          s <- _conn_string_adodbapi db_key None db_name ;;
          connect "adodbapi" adodbapi (cs +:+ s) (timeout self)
        else
          s <- _conn_string_odbc db_key None db_name ;;
          connect "odbc" pyodbc (cs +:+ s) (timeout self)) ;;
     service_check_handler OK (host i) (database i) None ;;;
     self <- get_self ;;
     match _conns self !! conn_key with
     | None => set_conns (<[conn_key := rawconn]> (_conns self))
     | Some old =>
         try_except
           (call (ConnClose old) (conn_close old))
           (fun e =>
              log INFO ("Could not close adodbapi db connection" +:+ newline +:+ "%s")
                  [Exc e]) ;;;
         self <- get_self ;;
         set_conns (<[conn_key := rawconn]> (_conns self))
     end)
    (fun e =>
       let cx := fmt (host i) +:+ " - " +:+ fmt (database i) in
       let message :=
         "Unable to connect to SQL Server for instance " +:+ cx +:+ ": " +:+ exn_repr e in
       self <- get_self ;;
       let password := instance_get (instance self) (Some "password") in
       let message :=
         match password with
         | Some p => PyStr.replace p PASSWORD_MASK message
         | None => message
         end in
       service_check_handler CRITICAL (host i) (database i) (Some message) ;;;
       raise (SQLConnectionError message)).

Definition close_db_connections (db_key db_name : option string) : M unit :=
  self <- get_self ;;
  let conn_key := _conn_key self db_key db_name in
  match _conns self !! conn_key with
  | None => ret tt
  | Some conn =>
      try_except
        (call (ConnClose conn) (conn_close conn) ;;;
         self <- get_self ;;
         set_conns (delete conn_key (_conns self)))
        (fun e =>
           log WARNING ("Could not close adodbapi db connection" +:+ newline +:+ "%s")
               [Exc e])
  end.

(** [for row in cursor: self.existing_databases[row.name] = True] *)
Fixpoint record_rows (names : list string) (last : outcome unit) : M unit :=
  match names with
  | [] =>
      match last with
      | Returns _ => ret tt
      | Throws r => raise (DriverError r)
      end
  | n :: names' =>
      self <- get_self ;;
      set_existing_databases ((<[n := true]>) <$> existing_databases self) ;;;
      record_rows names' last
  end.

Definition _check_db_exists : M (bool * string) :=
  self <- get_self ;;
  let i := _get_access_info self (Some DEFAULT_DB_KEY) None in
  let context := fmt (host i) +:+ " - " +:+ fmt (database i) in
  early <-
    (if existing_databases self is None then
       cur <- get_cursor None (Some DEFAULT_DATABASE) ;;
       try_finally
         (try_except
            (set_existing_databases (Some ∅) ;;;
             call (Execute DATABASE_EXISTS_QUERY) (cursor_execute cur) ;;;
             record_rows (cursor_rows cur) (cursor_rows_end cur) ;;;
             ret None)
            (fun e =>
               log ERROR "Failed to check if database %s exists: %s"
                   [Str (database i); Exc e] ;;;
               ret (Some (false, context))))
         (close_cursor cur)
     else ret None) ;;
  match early with
  | Some r => ret r
  | None =>
      self <- get_self ;;
      let present :=
        match database i, existing_databases self with
        | Some d, Some m => bool_decide (is_Some (m !! d))
        | _, _ => false
        end in
      ret (present, context)
  end.

(** [with self._open_managed_db_connections(db_key, db_name): body] *)
Definition _open_managed_db_connections {A} (db_key db_name : option string)
    (body : M A) : M A :=
  open_db_connections db_key db_name ;;;
  r <- body ;;
  close_db_connections db_key db_name ;;;
  ret r.

Definition open_managed_default_database {A} (body : M A) : M A :=
  _open_managed_db_connections None (Some DEFAULT_DATABASE) body.

Definition open_managed_default_connection {A} (body : M A) : M A :=
  _open_managed_db_connections (Some DEFAULT_DB_KEY) None body.

(** [with self.get_managed_cursor() as cursor: body cursor] *)
Definition get_managed_cursor {A} (body : cursor -> M A) : M A :=
  cur <- get_cursor (Some DEFAULT_DB_KEY) None ;;
  r <- body cur ;;
  close_cursor cur ;;;
  ret r.

Definition check_database : M (bool * string) :=
  open_managed_default_database _check_db_exists.

End Methods.

(** ** Notions used to state the properties *)

(** [m] leaves the object as it is: it only extends the trace. *)
Definition keeps_self {A} (m : M A) : Prop :=
  forall w, self (snd (m w)) = self w.

(** The world with events appended to its trace. *)
Definition extend (w : world) (evs : list event) : world :=
  {| self := self w; trace := trace w ++ evs |}.

(** The part of the [try] block of [open_db_connections] that ends with the
    driver's [connect]. *)
Definition open_connect {cm : CaseMapping} (adodbapi pyodbc : driver_module)
    (db_key db_name : option string) : M rawconn :=
  self <- get_self ;;
  let cs := default "" (instance_get (instance self) (Some "connection_string")) in
  let cs := cs +:+ (if negb (String.eqb cs "") then ";" else "") in
  c <- get_connector ;;
  if String.eqb c "adodbapi" then
    s <- _conn_string_adodbapi db_key None db_name ;;
    connect "adodbapi" adodbapi (cs +:+ s) (timeout self)
  else
    s <- _conn_string_odbc db_key None db_name ;;
    connect "odbc" pyodbc (cs +:+ s) (timeout self).

(** The rest of the [try] block: the service check and the store. *)
Definition open_store (conn_key : string) (i : AccessInfo) (rawconn : rawconn) : M unit :=
  service_check_handler OK (host i) (database i) None ;;;
  self <- get_self ;;
  match _conns self !! conn_key with
  | None => set_conns (<[conn_key := rawconn]> (_conns self))
  | Some old =>
      try_except
        (call (ConnClose old) (conn_close old))
        (fun e =>
           log INFO ("Could not close adodbapi db connection" +:+ newline +:+ "%s")
               [Exc e]) ;;;
      self <- get_self ;;
      set_conns (<[conn_key := rawconn]> (_conns self))
  end.

(** The [except] block. *)
Definition open_except (i : AccessInfo) (e : exn) : M unit :=
  let cx := fmt (host i) +:+ " - " +:+ fmt (database i) in
  let message :=
    "Unable to connect to SQL Server for instance " +:+ cx +:+ ": " +:+ exn_repr e in
  self <- get_self ;;
  let password := instance_get (instance self) (Some "password") in
  let message :=
    match password with
    | Some p => PyStr.replace p PASSWORD_MASK message
    | None => message
    end in
  service_check_handler CRITICAL (host i) (database i) (Some message) ;;;
  raise (SQLConnectionError message).

(** The message built in the [except] block of [open_db_connections], before
    and after the password is masked. *)
Definition raw_message (self : Connection) (db_key db_name : option string) (e : exn)
    : string :=
  let i := _get_access_info self db_key db_name in
  "Unable to connect to SQL Server for instance " +:+
  (fmt (host i) +:+ " - " +:+ fmt (database i)) +:+ ": " +:+ exn_repr e.

Definition scrub (password : option string) (message : string) : string :=
  match password with
  | Some p => PyStr.replace p PASSWORD_MASK message
  | None => message
  end.

(** The events of closing the handle a new one replaces. *)
Definition replace_events (old : option rawconn) : list event :=
  match old with
  | None => []
  | Some c =>
      ConnClose c ::
      match conn_close c with
      | Returns _ => []
      | Throws r =>
          [Log INFO ("Could not close adodbapi db connection" +:+ newline +:+ "%s")
               [Exc (DriverError r)]]
      end
  end.

(** One [name=value;] segment of a connection string, empty when the value is
    [None] or empty. *)
Definition segment (name : string) (v : option string) : string :=
  if truthy v then name +:+ "=" +:+ fmt v +:+ ";" else "".

(** The message of [get_cursor] for a key without connection. *)
Definition missing_message (self : Connection) : string :=
  "Cannot find an opened connection for host: " +:+
  fmt (instance_get (instance self) (Some "host")).

(** The dict after the names of the rows have been recorded in it. *)
Definition recorded (names : list string) (m : gmap string bool) : gmap string bool :=
  foldl (fun m n => <[n := true]> m) m names.

(** ["{host} - {database}"] for the default database key. *)
Definition probe_context (self : Connection) : string :=
  let i := _get_access_info self (Some DEFAULT_DB_KEY) None in
  fmt (host i) +:+ " - " +:+ fmt (database i).

(** The events of [close_cursor]. *)
Definition cursor_close_events (cur : cursor) : list event :=
  CursorClose cur ::
  match cursor_close cur with
  | Returns _ => []
  | Throws r =>
      [Log WARNING ("Could not close adodbapi cursor" +:+ newline +:+ "%s")
           [Exc (DriverError r)]]
  end.

(** What the [try] block of [_check_db_exists] raises on a cursor, if anything:
    the query first, then the end of the row iteration. *)
Definition probe_failure (cur : cursor) : option string :=
  match cursor_execute cur with
  | Throws r => Some r
  | Returns _ =>
      match cursor_rows_end cur with
      | Throws r => Some r
      | Returns _ => None
      end
  end.

(** The dict the [try] block of [_check_db_exists] leaves in the cache. *)
Definition probe_dict (cur : cursor) : gmap string bool :=
  match cursor_execute cur with
  | Returns _ => recorded (cursor_rows cur) ∅
  | Throws _ => ∅
  end.

(** [database in m] for a database name that may be [None]. *)
Definition in_dict (d : option string) (m : gmap string bool) : bool :=
  match d with
  | Some d => bool_decide (is_Some (m !! d))
  | None => false
  end.

(** The events of the probe on a cursor, after the cursor was obtained. *)
Definition probe_events (c : Connection) (cur : cursor) : list event :=
  Execute DATABASE_EXISTS_QUERY ::
  match probe_failure cur with
  | Some r =>
      [Log ERROR "Failed to check if database %s exists: %s"
           [Str (database (_get_access_info c (Some DEFAULT_DB_KEY) None));
            Exc (DriverError r)]]
  | None => []
  end ++ cursor_close_events cur.

Definition is_service_check (e : event) : bool :=
  match e with
  | ServiceCheck _ _ _ _ => true
  | _ => false
  end.

(** [m] only appends to the trace, and no service check. *)
Definition silent {A} (m : M A) : Prop :=
  forall w, exists evs,
    trace (snd (m w)) = trace w ++ evs /\ List.filter is_service_check evs = [].

(** The events of [close_db_connections] on a handle. *)
Definition conn_close_events (c : rawconn) : list event :=
  ConnClose c ::
  match conn_close c with
  | Returns _ => []
  | Throws r =>
      [Log WARNING ("Could not close adodbapi db connection" +:+ newline +:+ "%s")
           [Exc (DriverError r)]]
  end.

(** The pool after [close_db_connections] on a handle under a key. *)
Definition pool_after_close (key : string) (c : rawconn) (conns : gmap string rawconn)
    : gmap string rawconn :=
  match conn_close c with
  | Returns _ => delete key conns
  | Throws _ => <[key := c]> conns
  end.

(** The six fields of an access info as [format] renders them. *)
Definition rendered (i : AccessInfo) : list string :=
  [fmt (dsn i); fmt (host i); fmt (username i); fmt (password i); fmt (database i);
   fmt (driver i)].

(** No rendered field has a [":"] in it. *)
Definition colon_free (i : AccessInfo) : bool :=
  forallb (fun s => negb (PyStr.mem ":" s)) (rendered i).

(** No field is [None]. *)
Definition all_set (i : AccessInfo) : bool :=
  match dsn i, host i, username i, password i, database i, driver i with
  | Some _, Some _, Some _, Some _, Some _, Some _ => true
  | _, _, _, _, _, _ => false
  end.

(** The configured [connection_string], with its [";"] when it is not empty:
    what [open_db_connections] puts before the built connection string. *)
Definition user_connection_string (c : Connection) : string :=
  let cs := default "" (instance_get (instance c) (Some "connection_string")) in
  cs +:+ (if negb (String.eqb cs "") then ";" else "").

(** ** Sample objects *)

(** The case mappings for the samples, which are ASCII text. *)
#[export] Instance ascii_case : CaseMapping :=
  {| str_lower := PyStr.lower; str_upper := PyStr.upper;
     str_lower_ascii := fun _ _ => eq_refl; str_upper_ascii := fun _ _ => eq_refl |}.

Definition sample_config (l : list (string * string)) : Config :=
  {| fields := list_to_map l; command_timeout := None |}.

Definition sample_cursor (execute : outcome unit) (names : list string)
    (last close : outcome unit) : cursor :=
  {| cursor_execute := execute; cursor_rows := names; cursor_rows_end := last;
     cursor_close := close |}.

Definition sample_conn (id : nat) (close : outcome unit) (cur : outcome cursor) : rawconn :=
  {| conn_id := id; conn_close := close; conn_cursor := cur |}.

(** A driver whose [connect] always raises, and one that always hands out
    the same handle. *)
Definition failing_driver (r : string) : driver_module := Some (fun _ _ => Throws r).
Definition working_driver (c : rawconn) : driver_module := Some (fun _ _ => Returns c).

(** ** The string primitives on small inputs *)

Example replace_ex1 : PyStr.replace "ab" "******" "xabyabab" = "x******y************".
Proof. reflexivity. Qed.

Example replace_ex2 : PyStr.replace "aa" "-" "aaa" = "-a".
Proof. reflexivity. Qed.

Example replace_ex3 : PyStr.replace "" "-" "ab" = "-a-b-".
Proof. reflexivity. Qed.

Example split_ex1 : PyStr.split ":" "a::b:" = ["a"; ""; "b"; ""].
Proof. reflexivity. Qed.

Example lower_ex1 : PyStr.lower "ODBC-x1" = "odbc-x1".
Proof. reflexivity. Qed.

(** ** Facts about the string primitives *)

Module PyStrFacts.
Import PyStr.

Lemma append_nil_r s : s +:+ EmptyString = s.
Proof.
  induction s as [|a s IH]; [done|].
  change (String a s +:+ EmptyString) with (String a (s +:+ EmptyString)).
  by rewrite IH.
Qed.

Lemma append_assoc s t u : (s +:+ t) +:+ u = s +:+ t +:+ u.
Proof.
  induction s as [|a s IH]; [done|].
  change ((String a s +:+ t) +:+ u) with (String a ((s +:+ t) +:+ u)).
  by rewrite IH.
Qed.

Lemma startswith_nil s : startswith EmptyString s = true.
Proof. by destruct s. Qed.

Lemma startswith_refl s : startswith s s = true.
Proof. induction s as [|a s IH]; [done|]. simpl. by rewrite Ascii.eqb_refl. Qed.

Lemma startswith_app p s : startswith p (p +:+ s) = true.
Proof. induction p as [|a p IH]; simpl; [done|]. by rewrite Ascii.eqb_refl. Qed.

Lemma contains_startswith p s : startswith p s = true -> contains p s = true.
Proof. destruct s; simpl; [done|]. intros ->. done. Qed.

Lemma contains_app_r p a s : contains p s = true -> contains p (a +:+ s) = true.
Proof.
  intros H. induction a as [|c a IH]; simpl; [done|].
  rewrite IH. apply orb_true_r.
Qed.

Lemma contains_suffix p a : contains p (a +:+ p) = true.
Proof. apply contains_app_r, contains_startswith, startswith_refl. Qed.

Lemma count_app c a b : count c (a +:+ b) = count c a + count c b.
Proof. induction a as [|x a IH]; simpl; [done|]. rewrite IH. lia. Qed.

Lemma startswith_count c p s : startswith p s = true -> count c p <= count c s.
Proof.
  revert s. induction p as [|a p IH]; intros s H; simpl; [lia|].
  destruct s as [|b s]; simpl in H; [done|].
  apply andb_true_iff in H as [Hab Hps].
  apply Ascii.eqb_eq in Hab as ->. simpl.
  specialize (IH _ Hps). lia.
Qed.

Lemma contains_count c p s : contains p s = true -> count c p <= count c s.
Proof.
  induction s as [|b s IH]; simpl; intros H.
  - by apply (startswith_count c) in H.
  - apply orb_true_iff in H as [H|H].
    + by apply (startswith_count c) in H.
    + specialize (IH H). lia.
Qed.

(** *** [replace] *)

Section Replace.
Variables (old new : string) (a c : ascii) (old' new' : string).
Hypothesis Hold : old = String a old'.
Hypothesis Hnew : new = String c new'.
(** No character of [new] starts [old], and [new] starts with a character
    that [old] does not have. *)
Hypothesis Ha : mem a new = false.
Hypothesis Hc : mem c old = false.

Lemma startswith_replace_from q s :
  mem c q = false ->
  startswith q (replace_from old new 0 s) = true -> startswith q s = true.
Proof using Hnew.
  revert s. induction q as [|x q IH]; intros s Hq H; [apply startswith_nil|].
  simpl in Hq. apply orb_false_iff in Hq as [Hxc Hq].
  destruct s as [|b s]; [done|]. simpl in H.
  destruct (startswith old (String b s)).
  - rewrite Hnew in H. simpl in H. by rewrite Hxc in H.
  - simpl in *. apply andb_true_iff in H as [-> H]. simpl. by apply IH.
Qed.

Lemma contains_new_app s : contains old (new +:+ s) = contains old s.
Proof using Hold Ha.
  clear Hnew Hc. revert Ha. generalize new. intros n.
  induction n as [|x n IH]; intros Hm; [done|].
  simpl in Hm. apply orb_false_iff in Hm as [Hx Hn].
  change (String x n +:+ s) with (String x (n +:+ s)).
  change (contains old (String x (n +:+ s)))
    with (startswith old (String x (n +:+ s)) || contains old (n +:+ s)).
  rewrite IH by done.
  rewrite Hold. simpl. rewrite Ascii.eqb_sym, Hx. done.
Qed.

Lemma contains_replace_from s k : contains old (replace_from old new k s) = false.
Proof using All.
  revert k. induction s as [|b s IH]; intros k.
  - simpl. by rewrite Hold.
  - destruct k as [|k]; [|apply IH].
    cbn [replace_from]. destruct (startswith old (String b s)) eqn:Hs.
    + rewrite contains_new_app. apply IH.
    + cbn [contains]. rewrite IH, orb_false_r.
      destruct (startswith old (String b (replace_from old new 0 s))) eqn:Hr; [|done].
      assert (startswith old (replace_from old new 0 (String b s)) = true) as Hr'.
      { cbn [replace_from]. by rewrite Hs. }
      apply startswith_replace_from in Hr'; [congruence|done].
Qed.

Lemma replace_from_absent s : contains old s = false -> replace_from old new 0 s = s.
Proof using Hold.
  clear Hnew Ha Hc.
  induction s as [|b s IH]; [done|]. cbn [contains replace_from].
  intros H. apply orb_false_iff in H as [-> H]. by rewrite IH.
Qed.

Lemma replace_absent s : contains old (replace old new s) = false.
Proof using All. unfold replace. rewrite Hold, <- Hold. apply contains_replace_from. Qed.

Lemma replace_idempotent s : replace old new (replace old new s) = replace old new s.
Proof using All.
  unfold replace. rewrite Hold, <- Hold.
  apply replace_from_absent, contains_replace_from.
Qed.
End Replace.

(** *** [split] *)

Lemma split_absent sep s : mem sep s = false -> split sep s = [s].
Proof.
  induction s as [|x s IH]; simpl; [done|]. intros H.
  apply orb_false_iff in H as [-> H]. by rewrite IH.
Qed.

Lemma split_app sep s r :
  mem sep s = false -> split sep (s +:+ String sep r) = s :: split sep r.
Proof.
  induction s as [|x s IH]; simpl; intros H.
  - by rewrite Ascii.eqb_refl.
  - apply orb_false_iff in H as [-> H]. by rewrite IH.
Qed.

Lemma split_join sep s r :
  mem sep s = false ->
  split sep (s +:+ String sep EmptyString +:+ r) = s :: split sep r.
Proof. apply split_app. Qed.

End PyStrFacts.

(** ** Running the state and exception layer *)

Section Keeps.
Context {A B : Type}.

Lemma keeps_ret (a : A) : keeps_self (ret a).
Proof. by intros w. Qed.

Lemma keeps_raise (e : exn) : keeps_self (@raise A e).
Proof. by intros w. Qed.

Lemma keeps_bind (m : M A) (k : A -> M B) :
  keeps_self m -> (forall a, keeps_self (k a)) -> keeps_self (bind m k).
Proof.
  intros Hm Hk w. unfold bind. specialize (Hm w).
  destruct (m w) as [[a|e] w']; simpl in *; [|done].
  by rewrite Hk.
Qed.

Lemma keeps_try_except (m : M A) (h : exn -> M A) :
  keeps_self m -> (forall e, keeps_self (h e)) -> keeps_self (try_except m h).
Proof.
  intros Hm Hh w. unfold try_except. specialize (Hm w).
  destruct (m w) as [[a|e] w']; simpl in *; [done|].
  by rewrite Hh.
Qed.

Lemma keeps_call (ev : event) (o : outcome A) : keeps_self (call ev o).
Proof. intros w. unfold call, bind, emit. by destruct o. Qed.
End Keeps.

Lemma keeps_get_self : keeps_self get_self.
Proof. by intros w. Qed.

Lemma keeps_emit ev : keeps_self (emit ev).
Proof. by intros w. Qed.

Lemma keeps_log lvl f args : keeps_self (log lvl f args).
Proof. by intros w. Qed.

Lemma keeps_service_check s h d m : keeps_self (service_check_handler s h d m).
Proof. by intros w. Qed.

Lemma keeps_instance_item c k : keeps_self (instance_item c k).
Proof. intros w. unfold instance_item. by destruct (fields c !! k). Qed.

Create HintDb keeps.
#[export] Hint Resolve keeps_ret keeps_raise keeps_call keeps_get_self keeps_emit
  keeps_log keeps_service_check keeps_instance_item : keeps.

(** Decompose a computation along its binds, branches and handlers. *)
Ltac keeps_step :=
  first
    [ apply keeps_bind; [|intros ?]
    | apply keeps_try_except; [|intros ?]
    | solve [auto with keeps]
    | progress cbv zeta
    | match goal with
      | |- keeps_self (if ?b then _ else _) => destruct b
      | |- keeps_self (match ?o with _ => _ end) => destruct o
      end ].
Ltac keeps := repeat keeps_step.

Lemma keeps_get_connector {cm : CaseMapping} : keeps_self get_connector.
Proof. unfold get_connector. keeps. Qed.

Lemma keeps__get_adoprovider {cm : CaseMapping} : keeps_self _get_adoprovider.
Proof. unfold _get_adoprovider. keeps. Qed.

Lemma keeps_unpack6 l : keeps_self (unpack6 l).
Proof. unfold unpack6. do 7 (try destruct l as [|? l]); keeps. Qed.

#[export] Hint Resolve keeps_get_connector keeps__get_adoprovider keeps_unpack6 : keeps.

Lemma keeps_conn_string_info db_key conn_key db_name :
  keeps_self (conn_string_info db_key conn_key db_name).
Proof. unfold conn_string_info. keeps. Qed.

#[export] Hint Resolve keeps_conn_string_info : keeps.

Lemma keeps__conn_string_odbc db_key conn_key db_name :
  keeps_self (_conn_string_odbc db_key conn_key db_name).
Proof. unfold _conn_string_odbc. keeps. Qed.

Lemma keeps__conn_string_adodbapi {cm : CaseMapping} db_key conn_key db_name :
  keeps_self (_conn_string_adodbapi db_key conn_key db_name).
Proof. unfold _conn_string_adodbapi. keeps. Qed.

Lemma keeps_connect name m cs t : keeps_self (connect name m cs t).
Proof. unfold connect. keeps. Qed.

#[export] Hint Resolve keeps__conn_string_odbc keeps__conn_string_adodbapi
  keeps_connect : keeps.

Lemma keeps_open_connect {cm : CaseMapping} adodbapi pyodbc db_key db_name :
  keeps_self (open_connect adodbapi pyodbc db_key db_name).
Proof. unfold open_connect. keeps. Qed.

Lemma keeps_close_cursor cur : keeps_self (close_cursor cur).
Proof. unfold close_cursor. keeps. Qed.

Lemma keeps_get_cursor db_key db_name : keeps_self (get_cursor db_key db_name).
Proof. unfold get_cursor. keeps. Qed.

Lemma keeps_eq {A} (m : M A) w r w' :
  keeps_self m -> m w = (r, w') -> self w' = self w.
Proof. intros Hk Hm. specialize (Hk w). by rewrite Hm in Hk. Qed.

Lemma bind_assoc {A B C} (m : M A) (f : A -> M B) (g : B -> M C) w :
  bind (bind m f) g w = bind m (fun a => bind (f a) g) w.
Proof. unfold bind. by destruct (m w) as [[a|e] w']. Qed.

Lemma bind_get_self {A} (k : Connection -> M A) w : bind get_self k w = k (self w) w.
Proof. done. Qed.

Lemma try_except_ext {A} (m1 m2 : M A) h w :
  m1 w = m2 w -> try_except m1 h w = try_except m2 h w.
Proof. unfold try_except. by intros ->. Qed.

(** ** [open_db_connections], case by case *)

Section Open.
Context {cm : CaseMapping}.
Variables adodbapi pyodbc : driver_module.
Variables db_key db_name : option string.

Abbreviation open := (open_db_connections adodbapi pyodbc db_key db_name).
Abbreviation dial := (open_connect adodbapi pyodbc db_key db_name).

(** The [try] block is [open_connect] followed by [open_store]. *)
Lemma open_db_connections_unfold w :
  open w =
  try_except
    (bind dial (open_store (_conn_key (self w) db_key db_name)
                           (_get_access_info (self w) db_key db_name)))
    (open_except (_get_access_info (self w) db_key db_name)) w.
Proof.
  unfold open_db_connections. rewrite bind_get_self. cbv zeta.
  apply try_except_ext. unfold open_connect.
  rewrite bind_assoc, bind_get_self. cbv zeta. rewrite bind_assoc.
  reflexivity.
Qed.

Lemma open_store_run key i rc w :
  open_store key i rc w =
  (Return tt,
   {| self := with_conns (<[key := rc]> (_conns (self w))) (self w);
      trace := trace w ++ ServiceCheck OK (host i) (database i) None ::
               replace_events (_conns (self w) !! key) |}).
Proof.
  unfold open_store, bind, service_check_handler, emit, get_self. cbn.
  destruct (_conns (self w) !! key) as [old|]; cbn; [|done].
  unfold try_except, call, bind, emit, log, set_conns. cbn.
  destruct (conn_close old); cbn; by rewrite <- ?app_assoc.
Qed.

Lemma open_except_run w0 e w :
  open_except (_get_access_info w0 db_key db_name) e w =
  let i := _get_access_info w0 db_key db_name in
  let message :=
    scrub (instance_get (instance (self w)) (Some "password"))
          (raw_message w0 db_key db_name e) in
  (Raise (SQLConnectionError message),
   extend w [ServiceCheck CRITICAL (host i) (database i) (Some message)]).
Proof. reflexivity. Qed.

Lemma open_db_connections_run w :
  open w =
  let key := _conn_key (self w) db_key db_name in
  let i := _get_access_info (self w) db_key db_name in
  match dial w with
  | (Return rawconn, w1) =>
      (Return tt,
       {| self := with_conns (<[key := rawconn]> (_conns (self w))) (self w);
          trace := trace w1 ++ ServiceCheck OK (host i) (database i) None ::
                   replace_events (_conns (self w) !! key) |})
  | (Raise e, w1) =>
      let message :=
        scrub (instance_get (instance (self w)) (Some "password"))
              (raw_message (self w) db_key db_name e) in
      (Raise (SQLConnectionError message),
       extend w1 [ServiceCheck CRITICAL (host i) (database i) (Some message)])
  end.
Proof.
  rewrite open_db_connections_unfold. unfold try_except, bind.
  pose proof (keeps_open_connect adodbapi pyodbc db_key db_name w) as Hk.
  destruct (dial w) as [[rc|e] w1]; cbn [snd] in Hk.
  - rewrite open_store_run, Hk. reflexivity.
  - rewrite open_except_run, Hk. reflexivity.
Qed.
End Open.

(** ** The connection cache: opening *)

(** The driver's [connect] raising on the call the [try] block makes. *)
Lemma open_connect_driver_raises {cm : CaseMapping} adodbapi pyodbc db_key db_name
    w c wc s ws f r :
  let ado := String.eqb c "adodbapi" in
  let cs := user_connection_string (self w) +:+ s in
  get_connector w = (Return c, wc) ->
  (if ado then _conn_string_adodbapi db_key None db_name wc
   else _conn_string_odbc db_key None db_name wc) = (Return s, ws) ->
  (if ado then adodbapi else pyodbc) = Some f ->
  f cs (timeout (self w)) = Throws r ->
  open_connect adodbapi pyodbc db_key db_name w
  = (Raise (DriverError r),
     extend ws [Connect (if ado then "adodbapi" else "odbc") cs (timeout (self w))]).
Proof.
  cbv zeta. intros Hc Hs Hm Hf. unfold open_connect. rewrite bind_get_self. cbv zeta.
  unfold bind at 1. rewrite Hc.
  destruct (String.eqb c "adodbapi"); unfold bind at 1; rewrite Hs, Hm;
    unfold connect, call, bind, emit, user_connection_string in *; by rewrite Hf.
Qed.

Lemma mask_scrub (p : string) (m : string) :
  p <> "" -> PyStr.mem "*" p = false ->
  PyStr.contains p (PyStr.replace p PASSWORD_MASK m) = false /\
  PyStr.replace p PASSWORD_MASK (PyStr.replace p PASSWORD_MASK m)
  = PyStr.replace p PASSWORD_MASK m.
Proof.
  intros Hne Hstar. destruct p as [|a p']; [done|].
  assert (PyStr.mem a PASSWORD_MASK = false) as Ha.
  { cbn [PyStr.mem] in Hstar. apply orb_false_iff in Hstar as [Hstar _].
    unfold PASSWORD_MASK. cbn [PyStr.mem].
    rewrite (Ascii.eqb_sym "*" a), Hstar. done. }
  split.
  - by apply (PyStrFacts.replace_absent _ _ a "*" p' "*****").
  - by apply (PyStrFacts.replace_idempotent _ _ a "*" p' "*****").
Qed.




(** C10. Whenever the [try] block of [open_db_connections] raises, and so
    whenever the driver's [connect] raises on the connection string and
    timeout of the call, the call raises [SQLConnectionError], not the
    exception caught, and the pool is the one before the call; and the call
    raises in no other way. *)
Theorem C10_failed_open_keeps_pool {cm : CaseMapping} adodbapi pyodbc db_key db_name w :
  (forall c wc s ws f r,
     get_connector w = (Return c, wc) ->
     (if String.eqb c "adodbapi" then _conn_string_adodbapi db_key None db_name wc
      else _conn_string_odbc db_key None db_name wc) = (Return s, ws) ->
     (if String.eqb c "adodbapi" then adodbapi else pyodbc) = Some f ->
     f (user_connection_string (self w) +:+ s) (timeout (self w)) = Throws r ->
     exists message w',
       open_db_connections adodbapi pyodbc db_key db_name w
       = (Raise (SQLConnectionError message), w') /\
       _conns (self w') = _conns (self w)) /\
  (forall e w1,
     open_connect adodbapi pyodbc db_key db_name w = (Raise e, w1) ->
     exists message w',
       open_db_connections adodbapi pyodbc db_key db_name w
       = (Raise (SQLConnectionError message), w') /\
       _conns (self w') = _conns (self w)) /\
  (forall err w',
     open_db_connections adodbapi pyodbc db_key db_name w = (Raise err, w') ->
     (exists message, err = SQLConnectionError message) /\
     _conns (self w') = _conns (self w)).
Proof.
  pose proof (keeps_open_connect adodbapi pyodbc db_key db_name w) as Hk.
  assert (forall e w1,
            open_connect adodbapi pyodbc db_key db_name w = (Raise e, w1) ->
            exists message w',
              open_db_connections adodbapi pyodbc db_key db_name w
              = (Raise (SQLConnectionError message), w') /\
              _conns (self w') = _conns (self w)) as Hraise.
  { intros e w1 Hdial. rewrite open_db_connections_run, Hdial. cbv zeta.
    rewrite Hdial in Hk. cbn [snd] in Hk.
    do 2 eexists. split; [reflexivity|]. cbn. by rewrite Hk. }
  split; [|split].
  - intros c wc s ws f r Hc Hs Hm Hf.
    eapply Hraise, (open_connect_driver_raises adodbapi pyodbc db_key db_name); eauto.
  - exact Hraise.
  - intros err w'. rewrite open_db_connections_run. cbv zeta.
    destruct (open_connect adodbapi pyodbc db_key db_name w) as [[rc|e] w1]; [done|].
    cbn [snd] in Hk. intros [= <- <-]. split; [by eexists|]. cbn. by rewrite Hk.
Qed.

Lemma C10_failed_open_keeps_pool_witness :
  let old := sample_conn 1 (Returns tt) (Throws "Error('closed')") in
  let flaky : driver_module :=
    Some (fun cs _ =>
            if String.eqb cs "Provider=SQLOLEDB;Data Source=h;Initial Catalog=master;Integrated Security=SSPI;"
            then Throws "Error('timeout')"
            else Returns (sample_conn 2 (Returns tt) (Throws "Error('closed')"))) in
  let w0 := __init__ flaky None ∅ (sample_config [("host", "h")]) in
  let w := {| self := with_conns {["None:h:None:None:master:SQL Server" := old]} (self w0);
              trace := trace w0 |} in
  exists message w',
    open_db_connections flaky None (Some "database") None w
    = (Raise (SQLConnectionError message), w') /\
    _conns (self w') = _conns (self w).
Proof.
  intros old flaky w0 w.
  refine (proj1 (C10_failed_open_keeps_pool flaky None (Some "database") None w)
            "adodbapi" w
            "Provider=SQLOLEDB;Data Source=h;Initial Catalog=master;Integrated Security=SSPI;"
            (snd (_conn_string_adodbapi (Some "database") None None w))
            _ "Error('timeout')" _ _ _ _);
    [vm_compute; reflexivity | vm_compute; reflexivity | reflexivity
    | vm_compute; reflexivity].
Defined.

(** C5. The pool is a finite map, one handle per key. When
    [open_db_connections] returns and the key already had a handle, the [try]
    block got a new handle from the driver, the old handle's [close()] has
    been called after the OK service check, a failure of that [close()] is
    logged and not raised, and the new handle takes the place of the old one:
    the key maps to the new handle, the other keys are as before, and the
    pool has as many entries as before. *)
Theorem C5_open_replaces_stale {cm : CaseMapping} adodbapi pyodbc db_key db_name w old w' :
  _conns (self w) !! _conn_key (self w) db_key db_name = Some old ->
  open_db_connections adodbapi pyodbc db_key db_name w = (Return tt, w') ->
  exists rawconn w1,
    let key := _conn_key (self w) db_key db_name in
    let i := _get_access_info (self w) db_key db_name in
    open_connect adodbapi pyodbc db_key db_name w = (Return rawconn, w1) /\
    trace w' =
      trace w1 ++ [ServiceCheck OK (host i) (database i) None; ConnClose old] ++
      match conn_close old with
      | Returns _ => []
      | Throws r =>
          [Log INFO ("Could not close adodbapi db connection" +:+ newline +:+ "%s")
               [Exc (DriverError r)]]
      end /\
    _conns (self w') = <[key := rawconn]> (_conns (self w)) /\
    _conns (self w') !! key = Some rawconn /\
    (forall k, k <> key -> _conns (self w') !! k = _conns (self w) !! k) /\
    size (_conns (self w')) = size (_conns (self w)).
Proof.
  intros Hold. rewrite open_db_connections_run. cbv zeta.
  destruct (open_connect adodbapi pyodbc db_key db_name w) as [[rc|e] w1]; [|done].
  rewrite Hold. intros [= <-]. exists rc, w1. split; [reflexivity|]. cbn.
  repeat split.
  - apply lookup_insert_eq.
  - intros k Hk. by apply lookup_insert_ne.
  - by eapply map_size_insert_Some.
Qed.

Lemma C5_open_replaces_stale_witness :
  let old := sample_conn 1 (Throws "Error('gone')") (Throws "Error('gone')") in
  let new := sample_conn 2 (Returns tt) (Throws "Error('no cursor')") in
  let w0 := __init__ (working_driver new) None ∅ (sample_config [("host", "h")]) in
  let w := {| self := with_conns {["None:h:None:None:master:SQL Server" := old]} (self w0);
              trace := [] |} in
  let w' := snd (open_db_connections (working_driver new) None (Some "database") None w) in
  trace w' =
    [Log DEBUG "Connection string (before password) %s"
         [Str (Some "Provider=SQLOLEDB;Data Source=h;Initial Catalog=master;")];
     Connect "adodbapi"
       "Provider=SQLOLEDB;Data Source=h;Initial Catalog=master;Integrated Security=SSPI;" 5;
     ServiceCheck OK (Some "h") (Some "master") None;
     ConnClose old;
     Log INFO ("Could not close adodbapi db connection" +:+ newline +:+ "%s")
         [Exc (DriverError "Error('gone')")]] /\
  _conns (self w') !! "None:h:None:None:master:SQL Server" = Some new /\
  size (_conns (self w')) = 1.
Proof.
  intros old new w0 w w'.
  destruct (C5_open_replaces_stale (working_driver new) None (Some "database") None w old w')
    as (rc & w1 & Hdial & Htrace & _ & Hkey & _ & Hsize);
    [vm_compute; reflexivity | vm_compute; reflexivity |].
  cbv zeta in Hdial, Htrace, Hkey, Hsize.
  assert (rc = new /\
          w1 = snd (open_connect (working_driver new) None (Some "database") None w))
    as [-> ->].
  { rewrite Hdial. cbn [snd]. split; [|reflexivity].
    assert (Return rc = Return new) as [= ->]; [|reflexivity].
    change (Return rc) with (fst (Return rc, w1)). rewrite <- Hdial.
    vm_compute. reflexivity. }
  split; [exact Htrace | split; [exact Hkey | exact Hsize]].
Defined.

(** ** The connection cache: cursors and closing *)

Lemma conn_key_with_conns conns c db_key db_name :
  _conn_key (with_conns conns c) db_key db_name = _conn_key c db_key db_name.
Proof. reflexivity. Qed.

Lemma get_cursor_run db_key db_name w :
  get_cursor db_key db_name w =
  match _conns (self w) !! _conn_key (self w) db_key db_name with
  | None => (Raise (SQLConnectionError (missing_message (self w))), w)
  | Some conn =>
      match conn_cursor conn with
      | Returns cur => (Return cur, extend w [ConnCursor conn])
      | Throws r => (Raise (DriverError r), extend w [ConnCursor conn])
      end
  end.
Proof.
  unfold get_cursor. rewrite bind_get_self. cbv zeta.
  destruct (_conns (self w) !! _conn_key (self w) db_key db_name) as [conn|]; [|done].
  unfold call, bind, emit. by destruct (conn_cursor conn).
Qed.

Lemma close_db_connections_run db_key db_name w :
  close_db_connections db_key db_name w =
  let key := _conn_key (self w) db_key db_name in
  match _conns (self w) !! key with
  | None => (Return tt, w)
  | Some conn =>
      match conn_close conn with
      | Returns _ =>
          (Return tt,
           {| self := with_conns (delete key (_conns (self w))) (self w);
              trace := trace w ++ [ConnClose conn] |})
      | Throws r =>
          (Return tt,
           extend w [ConnClose conn;
                     Log WARNING ("Could not close adodbapi db connection" +:+ newline +:+ "%s")
                         [Exc (DriverError r)]])
      end
  end.
Proof.
  unfold close_db_connections. rewrite bind_get_self. cbv zeta.
  destruct (_conns (self w) !! _conn_key (self w) db_key db_name) as [conn|]; [|done].
  unfold try_except, call, bind, log, emit, get_self, set_conns, extend.
  destruct (conn_close conn); cbn; by rewrite <- ?app_assoc.
Qed.

Lemma close_db_connections_returns db_key db_name w :
  fst (close_db_connections db_key db_name w) = Return tt.
Proof.
  rewrite close_db_connections_run. cbv zeta.
  destruct (_conns (self w) !! _conn_key (self w) db_key db_name) as [conn|]; [|done].
  by destruct (conn_close conn).
Qed.

(** The key has at least five colons more than the host in it. *)
Lemma conn_key_colons c db_key db_name :
  5 + PyStr.count ":" (fmt (host (_get_access_info c db_key db_name)))
  <= PyStr.count ":" (_conn_key c db_key db_name).
Proof.
  unfold _conn_key. cbv zeta.
  repeat (rewrite PyStrFacts.count_app; cbn [PyStr.count String.append]).
  rewrite !Ascii.eqb_refl. lia.
Qed.

(** The resolved host is the configured one, or the default when the
    configured one is [None] or empty. *)
Lemma access_info_host c db_key db_name :
  let h := instance_get (instance c) (Some "host") in
  host (_get_access_info c db_key db_name) = h \/
  PyStr.count ":" (fmt h) = 0.
Proof.
  unfold _get_access_info. cbv zeta.
  destruct (truthy (instance_get (instance c) (Some "dsn"))); cbn [negb host]; [by left|].
  destruct (instance_get (instance c) (Some "host")) as [[|x h]|]; cbn; auto.
Qed.

Lemma missing_message_colons c :
  PyStr.count ":" (missing_message c)
  = 1 + PyStr.count ":" (fmt (instance_get (instance c) (Some "host"))).
Proof. unfold missing_message. by rewrite PyStrFacts.count_app. Qed.

Lemma missing_message_hides_key c db_key db_name :
  PyStr.contains (_conn_key c db_key db_name) (missing_message c) = false.
Proof.
  destruct (PyStr.contains _ _) eqn:H; [|done].
  apply (PyStrFacts.contains_count ":") in H.
  rewrite missing_message_colons in H.
  pose proof (conn_key_colons c db_key db_name) as Hk.
  destruct (access_info_host c db_key db_name) as [Hh|Hh].
  - rewrite Hh in Hk. lia.
  - rewrite Hh in H. lia.
Qed.

(** C2 (amended). For a key without entry in the pool, [get_cursor] raises
    [SQLConnectionError] and changes nothing; the message is the fixed text
    followed by the configured host, it contains the host, and it never
    contains the connection key. *)
Theorem C2_missing_connection_message db_key db_name w :
  _conns (self w) !! _conn_key (self w) db_key db_name = None ->
  let h := fmt (instance_get (instance (self w)) (Some "host")) in
  let message := "Cannot find an opened connection for host: " +:+ h in
  get_cursor db_key db_name w = (Raise (SQLConnectionError message), w) /\
  PyStr.contains h message = true /\
  PyStr.contains (_conn_key (self w) db_key db_name) message = false.
Proof.
  intros Hnone. cbv zeta. rewrite get_cursor_run, Hnone. repeat split.
  - apply PyStrFacts.contains_suffix.
  - apply missing_message_hides_key.
Qed.

Lemma C2_missing_connection_message_witness :
  let w := __init__ None None ∅
             (sample_config [("host", "db:1433"); ("password", "s3cret")]) in
  get_cursor (Some "foo") None w
  = (Raise (SQLConnectionError "Cannot find an opened connection for host: db:1433"), w) /\
  PyStr.contains "db:1433" "Cannot find an opened connection for host: db:1433" = true /\
  PyStr.contains "None:db:1433:None:s3cret:master:SQL Server"
    "Cannot find an opened connection for host: db:1433" = false.
Proof.
  intros w.
  exact (C2_missing_connection_message (Some "foo") None w eq_refl).
Defined.

(** C2 as stated fails: the password ["host"] occurs in the fixed text of the
    message. *)
Lemma C2_message_can_contain_password :
  let w := __init__ None None ∅
             (sample_config [("host", "h"); ("password", "host")]) in
  exists message,
    fst (get_cursor (Some "database") None w) = Raise (SQLConnectionError message) /\
    instance_get (instance (self w)) (Some "password") = Some "host" /\
    PyStr.contains "host" message = true.
Proof. eexists. vm_compute. repeat split. Qed.

(** C6 (amended). After a successful [open_db_connections] the key has a
    handle in the pool. When that handle's [close()] returns,
    [close_db_connections] evicts the entry, [get_cursor] then raises
    [SQLConnectionError], and a second [close_db_connections] leaves
    everything as it is. When the [close()] raises, the entry stays in the
    pool. In every case, and from any state, [close_db_connections] returns
    normally, twice in a row as well, and it changes nothing when the key has
    no entry. *)
Theorem C6_close_then_cursor {cm : CaseMapping} adodbapi pyodbc db_key db_name w0 w :
  open_db_connections adodbapi pyodbc db_key db_name w0 = (Return tt, w) ->
  let close := close_db_connections db_key db_name in
  let key := _conn_key (self w) db_key db_name in
  let w1 := snd (close w) in
  (exists conn,
     _conns (self w) !! key = Some conn /\
     (conn_close conn = Returns tt ->
      _conns (self w1) = delete key (_conns (self w)) /\
      (exists message,
         get_cursor db_key db_name w1 = (Raise (SQLConnectionError message), w1)) /\
      close w1 = (Return tt, w1)) /\
     (forall r, conn_close conn = Throws r -> _conns (self w1) !! key = Some conn)) /\
  (forall v : world,
     fst (close v) = Return tt /\
     fst (close (snd (close v))) = Return tt /\
     (_conns (self v) !! _conn_key (self v) db_key db_name = None ->
      close v = (Return tt, v))).
Proof.
  intros Hopen. cbv zeta. split.
  - rewrite open_db_connections_run in Hopen. cbv zeta in Hopen.
    destruct (open_connect adodbapi pyodbc db_key db_name w0) as [[rc|e] wd]; [|done].
    injection Hopen as <-. cbn [self]. rewrite conn_key_with_conns. cbn [_conns with_conns].
    exists rc. split; [apply lookup_insert_eq|].
    rewrite close_db_connections_run. cbv zeta. cbn [self].
    rewrite conn_key_with_conns. cbn [_conns with_conns]. rewrite lookup_insert_eq.
    split.
    + intros ->. cbn [snd self _conns with_conns]. split; [done|].
      rewrite get_cursor_run, close_db_connections_run. cbv zeta. cbn [self].
      rewrite !conn_key_with_conns. cbn [_conns with_conns].
      rewrite lookup_delete_eq. split; [by eexists|done].
    + intros r ->. cbn [snd extend self _conns with_conns]. apply lookup_insert_eq.
  - intros v. repeat split.
    + apply close_db_connections_returns.
    + apply close_db_connections_returns.
    + intros Hnone. by rewrite close_db_connections_run; cbv zeta; rewrite Hnone.
Qed.

Lemma C6_close_then_cursor_witness :
  let cur := sample_cursor (Returns tt) [] (Returns tt) (Returns tt) in
  let new := sample_conn 2 (Returns tt) (Returns cur) in
  let w0 := __init__ (working_driver new) None ∅ (sample_config [("host", "h")]) in
  let w := snd (open_db_connections (working_driver new) None (Some "database") None w0) in
  let w1 := snd (close_db_connections (Some "database") None w) in
  exists conn,
    _conns (self w) !! "None:h:None:None:master:SQL Server" = Some conn /\
    (exists message,
       get_cursor (Some "database") None w1 = (Raise (SQLConnectionError message), w1)) /\
    close_db_connections (Some "database") None w1 = (Return tt, w1).
Proof.
  intros cur new w0 w w1.
  destruct (C6_close_then_cursor (working_driver new) None (Some "database") None w0 w)
    as [(conn & Hconn & Hok & _) _]; [vm_compute; reflexivity|].
  exists conn. split; [exact Hconn|].
  assert (conn_close conn = Returns tt) as Hclose.
  { assert (Some conn = Some new) as [= ->] by (rewrite <- Hconn; vm_compute; reflexivity).
    reflexivity. }
  destruct (Hok Hclose) as (_ & Hcur & Hagain). split; [exact Hcur | exact Hagain].
Defined.

(** C6 as stated fails: when the handle's [close()] raises,
    [close_db_connections] leaves the entry in the pool and [get_cursor]
    returns a cursor of the stale handle. *)
Lemma C6_stale_entry_after_failed_close :
  let cur := sample_cursor (Returns tt) ["master"] (Returns tt) (Returns tt) in
  let new := sample_conn 2 (Throws "Error('busy')") (Returns cur) in
  let w0 := __init__ (working_driver new) None ∅ (sample_config [("host", "h")]) in
  let w := snd (open_db_connections (working_driver new) None (Some "database") None w0) in
  let w1 := snd (close_db_connections (Some "database") None w) in
  fst (open_db_connections (working_driver new) None (Some "database") None w0) = Return tt /\
  fst (close_db_connections (Some "database") None w) = Return tt /\
  fst (get_cursor (Some "database") None w1) = Return cur.
Proof. vm_compute. repeat split. Qed.

(** ** The database-existence probe *)

Lemma record_rows_run names last w m :
  existing_databases (self w) = Some m ->
  record_rows names last w =
  (match last with Returns _ => Return tt | Throws r => Raise (DriverError r) end,
   {| self := with_existing_databases (Some (recorded names m)) (self w);
      trace := trace w |}).
Proof.
  revert w m. induction names as [|n names IH]; intros w m Hm.
  - destruct w as [[] t]. cbn in *. subst. by destruct last.
  - cbn [record_rows]. rewrite bind_get_self. unfold bind at 1.
    unfold set_existing_databases at 1. rewrite Hm. cbn [fmap option_fmap option_map].
    by erewrite IH.
Qed.

Lemma close_cursor_run cur w :
  close_cursor cur w =
  (Return tt,
   extend w (CursorClose cur ::
             match cursor_close cur with
             | Returns _ => []
             | Throws r =>
                 [Log WARNING ("Could not close adodbapi cursor" +:+ newline +:+ "%s")
                      [Exc (DriverError r)]]
             end)).
Proof.
  unfold close_cursor, try_except, call, bind, log, emit, extend.
  destruct (cursor_close cur) as [[]|r]; cbn; by rewrite <- ?app_assoc.
Qed.

Lemma check_db_exists_cached m w :
  existing_databases (self w) = Some m ->
  exists b, _check_db_exists w = (Return (b, probe_context (self w)), w).
Proof.
  intros Hm. unfold _check_db_exists. rewrite bind_get_self. cbv zeta. rewrite Hm.
  unfold bind, ret, get_self. rewrite Hm. eexists. reflexivity.
Qed.




(** ** The access info and the connection key *)

(** C7. Without a DSN (absent or empty), [_get_access_info] gives the host
    ['127.0.0.1,1433'], the database ['master'] and the driver ['SQL Server']
    for each of the three whose configured value is absent or empty (the
    database value being [db_name] when given, the configured one
    otherwise), and the DSN, user name and password as configured. It is a
    function of the configuration and of its two arguments. *)
Theorem C7_access_info_defaults (c : Connection) (db_key db_name : option string) :
  truthy (instance_get (instance c) (Some "dsn")) = false ->
  let i := _get_access_info c db_key db_name in
  let configured_database :=
    match db_name with None => instance_get (instance c) db_key | Some _ => db_name end in
  (truthy (instance_get (instance c) (Some "host")) = false ->
   host i = Some "127.0.0.1,1433") /\
  (truthy configured_database = false -> database i = Some "master") /\
  (truthy (instance_get (instance c) (Some "driver")) = false ->
   driver i = Some "SQL Server") /\
  dsn i = instance_get (instance c) (Some "dsn") /\
  username i = instance_get (instance c) (Some "username") /\
  password i = instance_get (instance c) (Some "password") /\
  (forall c', instance c' = instance c ->
              _get_access_info c' db_key db_name = i).
Proof.
  intros Hdsn. cbv zeta. unfold _get_access_info. cbv zeta. rewrite Hdsn.
  cbn [negb dsn host username password database driver].
  repeat split.
  - by intros ->.
  - by intros ->.
  - by intros ->.
  - intros c' ->. by rewrite Hdsn.
Qed.

Lemma C7_access_info_defaults_witness :
  let c := self (__init__ None None ∅ (sample_config [("dsn", ""); ("driver", "")])) in
  let i := _get_access_info c (Some "database") None in
  host i = Some "127.0.0.1,1433" /\ database i = Some "master" /\
  driver i = Some "SQL Server".
Proof.
  intros c i.
  destruct (C7_access_info_defaults c (Some "database") None eq_refl)
    as (Hh & Hd & Hdr & _).
  split; [exact (Hh eq_refl) | split; [exact (Hd eq_refl) | exact (Hdr eq_refl)]].
Defined.

(** C4 (amended). [_conn_key] is a function of the configuration and of its
    two arguments: two objects with the same configuration give the same
    key. When none of the six fields, rendered by [format], has a [":"] in
    it, splitting the key on [":"] gives back the six rendered fields ([None]
    rendered as ["None"]), and a builder given the key starts from them. *)
Theorem C4_conn_key_round_trip (c : Connection) (db_key db_name : option string) :
  let i := _get_access_info c db_key db_name in
  PyStr.mem ":" (fmt (dsn i)) = false ->
  PyStr.mem ":" (fmt (host i)) = false ->
  PyStr.mem ":" (fmt (username i)) = false ->
  PyStr.mem ":" (fmt (password i)) = false ->
  PyStr.mem ":" (fmt (database i)) = false ->
  PyStr.mem ":" (fmt (driver i)) = false ->
  (forall c', instance c' = instance c ->
              _conn_key c' db_key db_name = _conn_key c db_key db_name) /\
  PyStr.split ":" (_conn_key c db_key db_name)
  = [fmt (dsn i); fmt (host i); fmt (username i); fmt (password i);
     fmt (database i); fmt (driver i)] /\
  (forall w,
     conn_string_info db_key (Some (_conn_key c db_key db_name)) db_name w
     = (Return {| dsn := Some (fmt (dsn i)); host := Some (fmt (host i));
                  username := Some (fmt (username i));
                  password := Some (fmt (password i));
                  database := Some (fmt (database i));
                  driver := Some (fmt (driver i)) |}, w)).
Proof.
  intros i H1 H2 H3 H4 H5 H6.
  assert (PyStr.split ":" (_conn_key c db_key db_name)
          = [fmt (dsn i); fmt (host i); fmt (username i); fmt (password i);
             fmt (database i); fmt (driver i)]) as Hsplit.
  { unfold _conn_key. cbv zeta. fold i.
    rewrite !PyStrFacts.split_join by done. by rewrite PyStrFacts.split_absent. }
  repeat split.
  - intros c' Hc. unfold _conn_key, _get_access_info. by rewrite Hc.
  - exact Hsplit.
  - intros w. unfold conn_string_info.
    assert (truthy (Some (_conn_key c db_key db_name)) = true) as ->.
    { unfold _conn_key. cbv zeta. by destruct (fmt (dsn _)). }
    cbn [fmt]. by rewrite Hsplit.
Qed.

Lemma C4_conn_key_round_trip_witness :
  let c := self (__init__ None None ∅
                   (sample_config [("host", "db,1433"); ("username", "u");
                                   ("password", "p"); ("database", "d")])) in
  PyStr.split ":" (_conn_key c (Some "database") None)
  = ["None"; "db,1433"; "u"; "p"; "d"; "SQL Server"].
Proof.
  intros c.
  exact (proj1 (proj2 (C4_conn_key_round_trip c (Some "database") None
                         eq_refl eq_refl eq_refl eq_refl eq_refl eq_refl))).
Defined.

(** C4 as stated fails: with a [":"] in the host the key splits into seven
    pieces, not the six fields, and the builder given the key raises. *)
Lemma C4_colon_in_host_breaks_round_trip :
  let w := __init__ None None ∅ (sample_config [("host", "tcp:db,1433")]) in
  let i := _get_access_info (self w) (Some "database") None in
  let key := _conn_key (self w) (Some "database") None in
  host i = Some "tcp:db,1433" /\
  PyStr.split ":" key = ["None"; "tcp"; "db,1433"; "None"; "None"; "master"; "SQL Server"] /\
  PyStr.split ":" key
  <> [fmt (dsn i); fmt (host i); fmt (username i); fmt (password i);
      fmt (database i); fmt (driver i)] /\
  fst (_conn_string_odbc (Some "database") (Some key) None w)
  = Raise (ValueError "too many values to unpack (expected 6)").
Proof. vm_compute. repeat split. discriminate. Qed.

(** ** The connection-string builders *)

Lemma get_adoprovider_returns {cm : CaseMapping} w h :
  instance_get (instance (self w)) (Some "host") = Some h ->
  exists provider w1, _get_adoprovider w = (Return provider, w1).
Proof.
  intros Hh. unfold _get_adoprovider. rewrite bind_get_self. cbv zeta.
  destruct (negb (String.eqb _ (adoprovider (self w)))); [|by do 2 eexists].
  destruct (negb (PyStr.in_list _ valid_adoproviders)); [by do 2 eexists|].
  unfold instance_item. cbn [instance_get] in Hh. rewrite Hh. by do 2 eexists.
Qed.



(** The builders on the sample of the specification, and the odbc builder
    started from the key of the same configuration. *)
Example builders_sample :
  let w := __init__ None None ∅ (sample_config [("host", "h"); ("database", "d")]) in
  fst (_conn_string_odbc (Some "database") None None w)
  = Return "DRIVER=SQL Server;Server=h;Database=d;" /\
  fst (_conn_string_adodbapi (Some "database") None None w)
  = Return "Provider=SQLOLEDB;Data Source=h;Initial Catalog=d;Integrated Security=SSPI;" /\
  fst (_conn_string_odbc (Some "database")
         (Some (_conn_key (self w) (Some "database") None)) None w)
  = Return "DSN=None;DRIVER=SQL Server;Server=h;Database=d;UID=None;PWD=None;".
Proof. vm_compute. repeat split. Qed.

(** ** Connector and provider selection *)

Lemma init_connector {cm : CaseMapping} adodbapi pyodbc init_config instance_config :
  let w := __init__ adodbapi pyodbc init_config instance_config in
  let c := default "adodbapi" (init_config !! "connector") in
  valid_connectors (self w)
  = (if adodbapi is Some _ then ["adodbapi"] else []) ++
    (if pyodbc is Some _ then ["odbc"] else []) /\
  connector (self w)
  = if PyStr.in_list (str_lower c) (valid_connectors (self w)) then c else "adodbapi".
Proof.
  cbv zeta. unfold __init__. cbv zeta.
  set (vc := if pyodbc is Some _ then _ else _).
  assert (vc = (if adodbapi is Some _ then ["adodbapi"] else []) ++
               (if pyodbc is Some _ then ["odbc"] else [])) as Hvc.
  { subst vc. by destruct adodbapi, pyodbc. }
  destruct (PyStr.in_list (str_lower _) vc) eqn:Hc;
    destruct (PyStr.in_list (str_upper _) valid_adoproviders);
    cbn [negb self valid_connectors connector]; split; try done; by rewrite Hc.
Qed.

Lemma init_adoprovider {cm : CaseMapping} adodbapi pyodbc init_config instance_config :
  let w := __init__ adodbapi pyodbc init_config instance_config in
  let p := default default_adoprovider (init_config !! "adoprovider") in
  adoprovider (self w)
  = if PyStr.in_list (str_upper p) valid_adoproviders then p else default_adoprovider.
Proof.
  cbv zeta. unfold __init__. cbv zeta.
  destruct (PyStr.in_list (str_lower _) _);
    destruct (PyStr.in_list (str_upper _) valid_adoproviders) eqn:Hp;
    cbn [negb self adoprovider]; by rewrite ?Hp.
Qed.

Lemma get_connector_run {cm : CaseMapping} w :
  get_connector w =
  let c := default (connector (self w)) (fields (instance (self w)) !! "connector") in
  if String.eqb c (connector (self w)) then (Return c, w)
  else if PyStr.in_list (str_lower c) (valid_connectors (self w)) then
    match fields (instance (self w)) !! "host" with
    | Some h =>
        (Return c,
         extend w [Log DEBUG "Overriding default connector for %s with %s"
                       [Str (Some h); Str (Some c)]])
    | None => (Raise (KeyError "host"), w)
    end
  else
    (Return (connector (self w)),
     extend w [Log WARNING "Invalid database connector %s using default %s"
                   [Str (Some c); Str (Some (connector (self w)))]]).
Proof.
  unfold get_connector. rewrite bind_get_self. cbv zeta.
  destruct (String.eqb _ (connector (self w))); cbn [negb]; [done|].
  destruct (PyStr.in_list _ (valid_connectors (self w))); cbn [negb]; [|done].
  unfold instance_item, bind. by destruct (fields (instance (self w)) !! "host").
Qed.

Lemma get_adoprovider_run {cm : CaseMapping} w :
  _get_adoprovider w =
  let p := default default_adoprovider (fields (instance (self w)) !! "adoprovider") in
  if String.eqb p (adoprovider (self w)) then (Return p, w)
  else if PyStr.in_list (str_upper p) valid_adoproviders then
    match fields (instance (self w)) !! "host" with
    | Some h =>
        (Return p,
         extend w [Log DEBUG "Overriding default ADO provider for %s with %s"
                       [Str (Some h); Str (Some p)]])
    | None => (Raise (KeyError "host"), w)
    end
  else
    (Return (adoprovider (self w)),
     extend w [Log WARNING "Invalid ADO provider %s using default %s"
                   [Str (Some p); Str (Some (adoprovider (self w)))]]).
Proof.
  unfold _get_adoprovider. rewrite bind_get_self. cbv zeta.
  destruct (String.eqb _ (adoprovider (self w))); cbn [negb]; [done|].
  destruct (PyStr.in_list _ valid_adoproviders); cbn [negb]; [|done].
  unfold instance_item, bind. by destruct (fields (instance (self w)) !! "host").
Qed.

(** C9 (amended). At initialization a configured connector that is not
    available is replaced by ['adodbapi'] and a configured ADO provider that
    is not allowed by ['SQLOLEDB'], and a valid value is kept as it is;
    [__init__] has no failure path. Per call, an invalid value of the
    instance is replaced by the default of the object, the value chosen at
    initialization, without raising; a valid value is returned as it is when
    the instance has a host configured. *)
Theorem C9_selection_falls_back {cm : CaseMapping} (adodbapi pyodbc : driver_module)
    (init_config : gmap string string) (instance_config : Config) (v : world) :
  let w := __init__ adodbapi pyodbc init_config instance_config in
  let c0 := default "adodbapi" (init_config !! "connector") in
  let p0 := default default_adoprovider (init_config !! "adoprovider") in
  ((PyStr.in_list (str_lower c0) (valid_connectors (self w)) = false ->
    connector (self w) = "adodbapi") /\
   (PyStr.in_list (str_lower c0) (valid_connectors (self w)) = true ->
    connector (self w) = c0) /\
   (PyStr.in_list (str_upper p0) valid_adoproviders = false ->
    adoprovider (self w) = "SQLOLEDB") /\
   (PyStr.in_list (str_upper p0) valid_adoproviders = true ->
    adoprovider (self w) = p0)) /\
  (forall c,
     fields (instance (self v)) !! "connector" = Some c ->
     (PyStr.in_list (str_lower c) (valid_connectors (self v)) = false ->
      fst (get_connector v) = Return (connector (self v))) /\
     (PyStr.in_list (str_lower c) (valid_connectors (self v)) = true ->
      is_Some (fields (instance (self v)) !! "host") ->
      fst (get_connector v) = Return c)) /\
  (forall p,
     fields (instance (self v)) !! "adoprovider" = Some p ->
     (PyStr.in_list (str_upper p) valid_adoproviders = false ->
      fst (_get_adoprovider v) = Return (adoprovider (self v))) /\
     (PyStr.in_list (str_upper p) valid_adoproviders = true ->
      is_Some (fields (instance (self v)) !! "host") ->
      fst (_get_adoprovider v) = Return p)).
Proof.
  cbv zeta. split; [|split].
  - destruct (init_connector adodbapi pyodbc init_config instance_config) as [_ Hc].
    pose proof (init_adoprovider adodbapi pyodbc init_config instance_config) as Hp.
    cbv zeta in Hc, Hp. repeat split; intros H.
    + rewrite Hc. by rewrite H.
    + rewrite Hc. by rewrite H.
    + rewrite Hp. by rewrite H.
    + rewrite Hp. by rewrite H.
  - intros c Hcfg. rewrite get_connector_run. cbv zeta. rewrite Hcfg.
    cbn [from_option]. unfold id.
    destruct (String.eqb c (connector (self v))) eqn:Heq.
    + apply String.eqb_eq in Heq as <-. by split.
    + split; intros ->; [done|]. by intros [h ->].
  - intros p Hcfg. rewrite get_adoprovider_run. cbv zeta. rewrite Hcfg.
    cbn [from_option]. unfold id.
    destruct (String.eqb p (adoprovider (self v))) eqn:Heq.
    + apply String.eqb_eq in Heq as <-. by split.
    + split; intros ->; [done|]. by intros [h ->].
Qed.

Lemma C9_selection_falls_back_witness :
  let drv := working_driver (sample_conn 1 (Returns tt) (Throws "Error('none')")) in
  let bad := __init__ None drv {["connector" := "mysql"; "adoprovider" := "bogus"]}
               (sample_config [("host", "h"); ("connector", "sqlite");
                               ("adoprovider", "bogus")]) in
  let good := __init__ drv drv {["connector" := "odbc"; "adoprovider" := "msoledbsql"]}
                (sample_config [("host", "h"); ("connector", "adodbapi");
                                ("adoprovider", "SQLNCLI11")]) in
  (connector (self bad) = "adodbapi" /\ adoprovider (self bad) = "SQLOLEDB" /\
   fst (get_connector bad) = Return "adodbapi" /\
   fst (_get_adoprovider bad) = Return "SQLOLEDB") /\
  (connector (self good) = "odbc" /\ adoprovider (self good) = "msoledbsql" /\
   fst (get_connector good) = Return "adodbapi" /\
   fst (_get_adoprovider good) = Return "SQLNCLI11").
Proof.
  intros drv bad good. split.
  - destruct (C9_selection_falls_back None drv
                {["connector" := "mysql"; "adoprovider" := "bogus"]}
                (sample_config [("host", "h"); ("connector", "sqlite");
                                ("adoprovider", "bogus")]) bad)
      as ((Hc & _ & Hp & _) & Hcall & Hprov).
    destruct (Hcall "sqlite" eq_refl) as [Hc' _].
    destruct (Hprov "bogus" eq_refl) as [Hp' _].
    split; [exact (Hc eq_refl)|]. split; [exact (Hp eq_refl)|].
    split; [exact (Hc' eq_refl) | exact (Hp' eq_refl)].
  - destruct (C9_selection_falls_back drv drv
                {["connector" := "odbc"; "adoprovider" := "msoledbsql"]}
                (sample_config [("host", "h"); ("connector", "adodbapi");
                                ("adoprovider", "SQLNCLI11")]) good)
      as ((_ & Hc & _ & Hp) & Hcall & Hprov).
    destruct (Hcall "adodbapi" eq_refl) as [_ Hc'].
    destruct (Hprov "SQLNCLI11" eq_refl) as [_ Hp'].
    split; [exact (Hc eq_refl)|]. split; [exact (Hp eq_refl)|].
    split; [exact (Hc' eq_refl (ex_intro _ "h" eq_refl))
           | exact (Hp' eq_refl (ex_intro _ "h" eq_refl))].
Defined.

(** C9 as stated fails: per call, an invalid value of the instance is replaced
    by the default of the object, here ['odbc'] and ['MSOLEDBSQL'] from the
    init configuration, not by ['adodbapi'] and ['SQLOLEDB']. *)
Lemma C9_per_call_default_is_not_fixed :
  let drv := working_driver (sample_conn 1 (Returns tt) (Throws "Error('none')")) in
  let w := __init__ drv drv {["connector" := "odbc"; "adoprovider" := "MSOLEDBSQL"]}
             (sample_config [("host", "h"); ("connector", "mysql");
                             ("adoprovider", "bogus")]) in
  PyStr.in_list (str_lower "mysql") (valid_connectors (self w)) = false /\
  PyStr.in_list (str_upper "bogus") valid_adoproviders = false /\
  fst (get_connector w) = Return "odbc" /\
  fst (get_connector w) <> Return "adodbapi" /\
  fst (_get_adoprovider w) = Return "MSOLEDBSQL" /\
  fst (_get_adoprovider w) <> Return "SQLOLEDB".
Proof. vm_compute. repeat split; discriminate. Qed.

(** A valid override on an instance without [host]: the debug record reads
    [instance['host']] and the selection raises [KeyError]. *)
Example override_without_host :
  let drv := working_driver (sample_conn 1 (Returns tt) (Throws "Error('none')")) in
  let w := __init__ drv drv ∅ (sample_config [("dsn", "prod"); ("connector", "odbc");
                                               ("adoprovider", "MSOLEDBSQL")]) in
  fst (get_connector w) = Raise (KeyError "host") /\
  fst (_get_adoprovider w) = Raise (KeyError "host").
Proof. vm_compute. by split. Qed.

(** ** More on the connection cache *)

Lemma init_state {cm : CaseMapping} adodbapi pyodbc init_config instance_config :
  let w := __init__ adodbapi pyodbc init_config instance_config in
  instance (self w) = instance_config /\
  _conns (self w) = ∅ /\
  existing_databases (self w) = None /\
  timeout (self w) = default DEFAULT_COMMAND_TIMEOUT (command_timeout instance_config).
Proof.
  cbv zeta. unfold __init__. cbv zeta.
  destruct (negb (PyStr.in_list (str_lower _) _));
    destruct (negb (PyStr.in_list (str_upper _) valid_adoproviders)); done.
Qed.

Lemma check_db_exists_missing w :
  existing_databases (self w) = None ->
  _conns (self w) !! _conn_key (self w) None (Some DEFAULT_DATABASE) = None ->
  _check_db_exists w = (Raise (SQLConnectionError (missing_message (self w))), w).
Proof.
  intros Hnone Hkey. unfold _check_db_exists. rewrite bind_get_self. cbv zeta.
  rewrite Hnone. unfold bind. by rewrite get_cursor_run, Hkey.
Qed.

(** X1. On an object just built by [__init__], whatever the configuration and
    the drivers, [get_cursor] raises [SQLConnectionError] for every key, and
    so does [_check_db_exists]; [close_db_connections] returns; none of the
    three changes the object or records anything. *)
Theorem X1_fresh_object_has_no_connection {cm : CaseMapping} adodbapi pyodbc init_config instance_config
    db_key db_name :
  let w := __init__ adodbapi pyodbc init_config instance_config in
  let message :=
    "Cannot find an opened connection for host: " +:+
    fmt (fields instance_config !! "host") in
  get_cursor db_key db_name w = (Raise (SQLConnectionError message), w) /\
  _check_db_exists w = (Raise (SQLConnectionError message), w) /\
  close_db_connections db_key db_name w = (Return tt, w).
Proof.
  cbv zeta.
  destruct (init_state adodbapi pyodbc init_config instance_config)
    as (Hinst & Hconns & Hcache & _). cbv zeta in Hinst, Hconns, Hcache.
  split; [|split].
  - rewrite get_cursor_run, Hconns, lookup_empty. unfold missing_message.
    by rewrite Hinst.
  - rewrite check_db_exists_missing by (by rewrite ?Hconns, ?lookup_empty).
    unfold missing_message. by rewrite Hinst.
  - rewrite close_db_connections_run. cbv zeta. by rewrite Hconns, lookup_empty.
Qed.

(** X2. After a successful [open_db_connections], [get_cursor] for the same
    key reaches the handle the driver returned: it calls that handle's
    [cursor()] and returns or raises what the call does, never the
    [SQLConnectionError] of a missing connection. *)
Theorem X2_open_then_get_cursor {cm : CaseMapping} adodbapi pyodbc db_key db_name w w' :
  open_db_connections adodbapi pyodbc db_key db_name w = (Return tt, w') ->
  exists rawconn w1,
    open_connect adodbapi pyodbc db_key db_name w = (Return rawconn, w1) /\
    get_cursor db_key db_name w' =
    (match conn_cursor rawconn with
     | Returns cur => Return cur
     | Throws r => Raise (DriverError r)
     end, extend w' [ConnCursor rawconn]).
Proof.
  rewrite open_db_connections_run. cbv zeta.
  destruct (open_connect adodbapi pyodbc db_key db_name w) as [[rc|e] w1]; [|done].
  intros [= <-]. exists rc, w1. split; [done|].
  rewrite get_cursor_run. cbn [self]. rewrite conn_key_with_conns.
  cbn [_conns with_conns]. rewrite lookup_insert_eq. by destruct (conn_cursor rc).
Qed.

Lemma X2_open_then_get_cursor_witness :
  let cur := sample_cursor (Returns tt) ["master"] (Returns tt) (Returns tt) in
  let new := sample_conn 2 (Returns tt) (Returns cur) in
  let w := __init__ None (working_driver new) {["connector" := "odbc"]}
             (sample_config [("host", "h")]) in
  let w' := snd (open_db_connections None (working_driver new) (Some "database") None w) in
  get_cursor (Some "database") None w' = (Return cur, extend w' [ConnCursor new]).
Proof.
  intros cur new w w'.
  destruct (X2_open_then_get_cursor None (working_driver new) (Some "database") None w w')
    as (rc & w1 & Hdial & Hcur); [vm_compute; reflexivity|].
  assert (rc = new) as ->.
  { assert (Return rc = Return new) as [= ->]; [|reflexivity].
    change (Return rc) with (fst (Return rc, w1)). rewrite <- Hdial.
    vm_compute. reflexivity. }
  exact Hcur.
Defined.

(** X3. A successful [open_db_connections] for a key without entry adds the
    handle under that key and closes nothing: the pool has one entry more,
    the other keys are as before, the configuration and the existence cache
    are untouched, and after the driver call only the OK service check is
    recorded. *)
Theorem X3_open_fresh_key {cm : CaseMapping} adodbapi pyodbc db_key db_name w w' :
  _conns (self w) !! _conn_key (self w) db_key db_name = None ->
  open_db_connections adodbapi pyodbc db_key db_name w = (Return tt, w') ->
  exists rawconn w1,
    let key := _conn_key (self w) db_key db_name in
    let i := _get_access_info (self w) db_key db_name in
    open_connect adodbapi pyodbc db_key db_name w = (Return rawconn, w1) /\
    trace w' = trace w1 ++ [ServiceCheck OK (host i) (database i) None] /\
    _conns (self w') !! key = Some rawconn /\
    (forall k, k <> key -> _conns (self w') !! k = _conns (self w) !! k) /\
    size (_conns (self w')) = S (size (_conns (self w))) /\
    instance (self w') = instance (self w) /\
    existing_databases (self w') = existing_databases (self w).
Proof.
  intros Hnone. rewrite open_db_connections_run. cbv zeta.
  destruct (open_connect adodbapi pyodbc db_key db_name w) as [[rc|e] w1]; [|done].
  rewrite Hnone. intros [= <-]. exists rc, w1. cbn.
  repeat split.
  - apply lookup_insert_eq.
  - intros k Hk. by apply lookup_insert_ne.
  - by apply map_size_insert_None.
Qed.

Lemma X3_open_fresh_key_witness :
  let new := sample_conn 2 (Returns tt) (Throws "Error('no cursor')") in
  let w := __init__ (working_driver new) None ∅ (sample_config [("host", "h")]) in
  let w' := snd (open_db_connections (working_driver new) None (Some "database") None w) in
  _conns (self w') !! "None:h:None:None:master:SQL Server" = Some new /\
  size (_conns (self w')) = 1.
Proof.
  intros new w w'.
  destruct (X3_open_fresh_key (working_driver new) None (Some "database") None w w')
    as (rc & w1 & Hdial & _ & Hkey & _ & Hsize & _);
    [vm_compute; reflexivity | vm_compute; reflexivity |].
  cbv zeta in Hkey, Hsize.
  assert (rc = new) as ->.
  { assert (Return rc = Return new) as [= ->]; [|reflexivity].
    change (Return rc) with (fst (Return rc, w1)). rewrite <- Hdial.
    vm_compute. reflexivity. }
  split; [exact Hkey | exact Hsize].
Defined.

(** X4. [close_db_connections] touches its own key only: it never adds an
    entry, the other keys keep their handle, the configuration and the
    existence cache are untouched, and it calls [close()] on no handle but
    the one under its key. *)
Theorem X4_close_frame db_key db_name w :
  let w' := snd (close_db_connections db_key db_name w) in
  let key := _conn_key (self w) db_key db_name in
  _conns (self w') ⊆ _conns (self w) /\
  (forall k, k <> key -> _conns (self w') !! k = _conns (self w) !! k) /\
  instance (self w') = instance (self w) /\
  existing_databases (self w') = existing_databases (self w) /\
  (forall c evs, trace w' = trace w ++ evs -> ConnClose c ∈ evs ->
                 _conns (self w) !! key = Some c).
Proof.
  cbv zeta. rewrite close_db_connections_run. cbv zeta.
  destruct (_conns (self w) !! _conn_key (self w) db_key db_name) as [conn|] eqn:Hk.
  - destruct (conn_close conn) as [[]|r]; cbn; repeat split; try done.
    + apply delete_subseteq.
    + intros k Hne. by apply lookup_delete_ne.
    + intros c evs Hevs Hin. apply app_inv_head in Hevs as <-.
      apply list_elem_of_singleton in Hin as [= ->]. done.
    + intros c evs Hevs Hin. apply app_inv_head in Hevs as <-.
      apply elem_of_cons in Hin as [[= ->]|Hin]; [done|].
      by apply list_elem_of_singleton in Hin.
  - cbn. repeat split; try done.
    intros c evs Hevs Hin. rewrite <- (app_nil_r (trace w)) in Hevs at 1.
    apply app_inv_head in Hevs as <-. by apply elem_of_nil in Hin.
Qed.

(** X5. Opening a connection under a key without entry and closing it again
    gives back the pool there was before, provided the [close()] of the
    handle returns: the only thing the closing call records is that
    [close()]. *)
Theorem X5_open_close_round_trip {cm : CaseMapping} adodbapi pyodbc db_key db_name w w' rawconn :
  _conns (self w) !! _conn_key (self w) db_key db_name = None ->
  open_db_connections adodbapi pyodbc db_key db_name w = (Return tt, w') ->
  _conns (self w') !! _conn_key (self w) db_key db_name = Some rawconn ->
  conn_close rawconn = Returns tt ->
  let w'' := snd (close_db_connections db_key db_name w') in
  fst (close_db_connections db_key db_name w') = Return tt /\
  _conns (self w'') = _conns (self w) /\
  trace w'' = trace w' ++ [ConnClose rawconn].
Proof.
  intros Hnone. rewrite open_db_connections_run. cbv zeta.
  destruct (open_connect adodbapi pyodbc db_key db_name w) as [[rc|e] w1]; [|done].
  intros [= <-]. cbn [self _conns with_conns]. rewrite lookup_insert_eq.
  intros [= <-] Hclose. rewrite close_db_connections_run. cbv zeta. cbn [self].
  rewrite conn_key_with_conns. cbn [_conns with_conns].
  rewrite lookup_insert_eq, Hclose. cbn. repeat split.
  by rewrite delete_insert_id.
Qed.

Lemma X5_open_close_round_trip_witness :
  let new := sample_conn 2 (Returns tt) (Throws "Error('no cursor')") in
  let w := __init__ (working_driver new) None ∅ (sample_config [("host", "h")]) in
  let w' := snd (open_db_connections (working_driver new) None (Some "database") None w) in
  let w'' := snd (close_db_connections (Some "database") None w') in
  fst (close_db_connections (Some "database") None w') = Return tt /\
  _conns (self w'') = ∅ /\
  trace w'' = trace w' ++ [ConnClose new].
Proof.
  intros new w w' w''.
  exact (X5_open_close_round_trip (working_driver new) None (Some "database") None w w' new
           eq_refl eq_refl eq_refl eq_refl).
Defined.

(** ** Service checks *)

Section Silent.
Context {A B : Type}.

Lemma silent_ret (a : A) : silent (ret a).
Proof. intros w. exists []. by rewrite app_nil_r. Qed.

Lemma silent_raise (e : exn) : silent (@raise A e).
Proof. intros w. exists []. by rewrite app_nil_r. Qed.

Lemma silent_bind (m : M A) (k : A -> M B) :
  silent m -> (forall a, silent (k a)) -> silent (bind m k).
Proof.
  intros Hm Hk w. unfold bind. destruct (Hm w) as (evs & Ht & Hf).
  destruct (m w) as [[a|e] w1]; cbn [snd] in *; [|by exists evs].
  destruct (Hk a w1) as (evs' & Ht' & Hf'). exists (evs ++ evs'). split.
  - by rewrite Ht', Ht, app_assoc.
  - by rewrite List.filter_app, Hf, Hf'.
Qed.

Lemma silent_try_except (m : M A) (h : exn -> M A) :
  silent m -> (forall e, silent (h e)) -> silent (try_except m h).
Proof.
  intros Hm Hh w. unfold try_except. destruct (Hm w) as (evs & Ht & Hf).
  destruct (m w) as [[a|e] w1]; cbn [snd] in *; [by exists evs|].
  destruct (Hh e w1) as (evs' & Ht' & Hf'). exists (evs ++ evs'). split.
  - by rewrite Ht', Ht, app_assoc.
  - by rewrite List.filter_app, Hf, Hf'.
Qed.

Lemma silent_call (ev : event) (o : outcome A) :
  is_service_check ev = false -> silent (call ev o).
Proof.
  intros Hev w. exists [ev]. unfold call, bind, emit.
  destruct o; cbn; by rewrite Hev.
Qed.
End Silent.

Lemma silent_get_self : silent get_self.
Proof. intros w. exists []. by rewrite app_nil_r. Qed.

Lemma silent_log lvl f args : silent (log lvl f args).
Proof. intros w. by exists [Log lvl f args]. Qed.

Lemma silent_instance_item c k : silent (instance_item c k).
Proof.
  intros w. exists []. unfold instance_item.
  destruct (fields c !! k); by rewrite app_nil_r.
Qed.

Create HintDb silent.
#[export] Hint Resolve silent_ret silent_raise silent_get_self silent_log
  silent_instance_item : silent.

Ltac silent_step :=
  first
    [ apply silent_call; reflexivity
    | solve [auto with silent]
    | apply silent_bind; [|intros ?]
    | apply silent_try_except; [|intros ?]
    | progress cbv zeta
    | match goal with
      | |- silent (if ?b then _ else _) => destruct b
      | |- silent (match ?o with _ => _ end) => destruct o
      end ].
Ltac silent := repeat silent_step.

Lemma silent_get_connector {cm : CaseMapping} : silent get_connector.
Proof. unfold get_connector. silent. Qed.

Lemma silent__get_adoprovider {cm : CaseMapping} : silent _get_adoprovider.
Proof. unfold _get_adoprovider. silent. Qed.

Lemma silent_unpack6 l : silent (unpack6 l).
Proof. unfold unpack6. do 7 (try destruct l as [|? l]); silent. Qed.

#[export] Hint Resolve silent_get_connector silent__get_adoprovider silent_unpack6 : silent.

Lemma silent_conn_string_info db_key conn_key db_name :
  silent (conn_string_info db_key conn_key db_name).
Proof. unfold conn_string_info. silent. Qed.

#[export] Hint Resolve silent_conn_string_info : silent.

Lemma silent__conn_string_odbc db_key conn_key db_name :
  silent (_conn_string_odbc db_key conn_key db_name).
Proof. unfold _conn_string_odbc. silent. Qed.

Lemma silent__conn_string_adodbapi {cm : CaseMapping} db_key conn_key db_name :
  silent (_conn_string_adodbapi db_key conn_key db_name).
Proof. unfold _conn_string_adodbapi. silent. Qed.

Lemma silent_connect name m cs t : silent (connect name m cs t).
Proof. unfold connect. silent. Qed.

#[export] Hint Resolve silent__conn_string_odbc silent__conn_string_adodbapi
  silent_connect : silent.

Lemma silent_open_connect {cm : CaseMapping} adodbapi pyodbc db_key db_name :
  silent (open_connect adodbapi pyodbc db_key db_name).
Proof. unfold open_connect. silent. Qed.

Lemma replace_events_silent old : List.filter is_service_check (replace_events old) = [].
Proof. destruct old as [c|]; [|done]. cbn. by destruct (conn_close c). Qed.

(** X6. Every call of [open_db_connections] reports exactly one service
    check: OK, without message, when the call returns, and CRITICAL, with the
    message of the [SQLConnectionError] it raises, when it raises; both for
    the host and database of the resolved access info. Nothing already in the
    trace is lost. *)
Theorem X6_one_service_check_per_open {cm : CaseMapping} adodbapi pyodbc db_key db_name w :
  let r := open_db_connections adodbapi pyodbc db_key db_name w in
  let i := _get_access_info (self w) db_key db_name in
  exists evs,
    trace (snd r) = trace w ++ evs /\
    match fst r with
    | Return _ =>
        List.filter is_service_check evs = [ServiceCheck OK (host i) (database i) None]
    | Raise e =>
        exists message,
          e = SQLConnectionError message /\
          List.filter is_service_check evs
          = [ServiceCheck CRITICAL (host i) (database i) (Some message)]
    end.
Proof.
  cbv zeta. rewrite open_db_connections_run. cbv zeta.
  destruct (silent_open_connect adodbapi pyodbc db_key db_name w) as (evs & Ht & Hf).
  destruct (open_connect adodbapi pyodbc db_key db_name w) as [[rc|e] w1];
    cbn [fst snd trace extend] in *; rewrite Ht, <- app_assoc; eexists;
    (split; [reflexivity|]).
  - rewrite List.filter_app, Hf. cbn. by rewrite replace_events_silent.
  - eexists. split; [reflexivity|]. by rewrite List.filter_app, Hf.
Qed.

(** ** More on the database-existence probe *)

Lemma recorded_lookup names (m : gmap string bool) d :
  is_Some (recorded names m !! d) <-> d ∈ names \/ is_Some (m !! d).
Proof.
  unfold recorded. revert m. induction names as [|n names IH]; intros m; cbn [foldl].
  - split; [by right|]. intros [H|H]; [by apply elem_of_nil in H|done].
  - rewrite IH, lookup_insert_is_Some', elem_of_cons. split.
    + intros [H|[H|H]]; auto.
    + intros [[H|H]|H]; auto.
Qed.

Lemma check_db_exists_first w cur w1 :
  existing_databases (self w) = None ->
  get_cursor None (Some DEFAULT_DATABASE) w = (Return cur, w1) ->
  _check_db_exists w =
  (Return (match probe_failure cur with
           | Some _ => false
           | None =>
               in_dict (database (_get_access_info (self w) (Some DEFAULT_DB_KEY) None))
                       (probe_dict cur)
           end, probe_context (self w)),
   {| self := with_existing_databases (Some (probe_dict cur)) (self w);
      trace := trace w1 ++ probe_events (self w) cur |}).
Proof.
  intros Hnone Hcur.
  pose proof (keeps_eq _ _ _ _ (keeps_get_cursor _ _) Hcur) as Hself.
  unfold _check_db_exists. rewrite bind_get_self. cbv zeta. rewrite Hnone.
  unfold bind at 1 2. rewrite Hcur.
  unfold try_finally, try_except. unfold bind at 2 3 4.
  unfold set_existing_databases at 1.
  unfold bind at 1. unfold call, bind at 1, emit, log.
  unfold probe_failure, probe_dict, probe_events, probe_failure, probe_context.
  destruct (cursor_execute cur) as [[]|r] eqn:He.
  - unfold ret, emit. cbn [fst snd self trace].
    erewrite record_rows_run by reflexivity.
    destruct (cursor_rows_end cur) as [[]|r]; cbn [self trace];
      rewrite close_cursor_run; unfold bind, get_self, extend, in_dict;
      cbn; rewrite Hself, <- ?app_assoc; reflexivity.
  - unfold ret, emit, raise. cbn [fst snd self trace]. rewrite close_cursor_run.
    unfold extend. cbn. rewrite Hself, <- ?app_assoc. reflexivity.
Qed.

Lemma check_db_exists_cached_value m w :
  existing_databases (self w) = Some m ->
  _check_db_exists w =
  (Return (in_dict (database (_get_access_info (self w) (Some DEFAULT_DB_KEY) None)) m,
           probe_context (self w)), w).
Proof.
  intros Hm. unfold _check_db_exists. rewrite bind_get_self. cbv zeta. rewrite Hm.
  unfold bind, ret, get_self, in_dict. by rewrite Hm.
Qed.

(** X7. On a first invocation whose catalog query and row iteration succeed,
    [_check_db_exists] returns whether the configured database is among the
    names of the rows, with the context ["{host} - {database}"]; it issues
    the query once and closes its cursor; and a second invocation returns the
    same answer from the cache without touching the object or recording
    anything, so without a second query. *)
Theorem X7_probe_success_is_cached w cur w1 :
  existing_databases (self w) = None ->
  get_cursor None (Some DEFAULT_DATABASE) w = (Return cur, w1) ->
  probe_failure cur = None ->
  let b :=
    match database (_get_access_info (self w) (Some DEFAULT_DB_KEY) None) with
    | Some d => bool_decide (d ∈ cursor_rows cur)
    | None => false
    end in
  exists w2,
    _check_db_exists w = (Return (b, probe_context (self w)), w2) /\
    trace w2 = trace w1 ++ Execute DATABASE_EXISTS_QUERY :: cursor_close_events cur /\
    _check_db_exists w2 = (Return (b, probe_context (self w)), w2).
Proof.
  intros Hnone Hcur Hok. cbv zeta.
  assert (in_dict (database (_get_access_info (self w) (Some DEFAULT_DB_KEY) None))
                  (probe_dict cur)
          = match database (_get_access_info (self w) (Some DEFAULT_DB_KEY) None) with
            | Some d => bool_decide (d ∈ cursor_rows cur)
            | None => false
            end) as Hb.
  { unfold in_dict, probe_dict, probe_failure in *.
    destruct (cursor_execute cur); [|done].
    destruct (database _) as [d|]; [|done]. apply bool_decide_ext.
    rewrite recorded_lookup, lookup_empty. split; [|by left].
    intros [H|[x H]]; done. }
  rewrite (check_db_exists_first w cur w1 Hnone Hcur).
  unfold probe_events. rewrite Hok, Hb. eexists.
  split; [reflexivity|]. split; [reflexivity|].
  rewrite (check_db_exists_cached_value (probe_dict cur)) by done.
  cbn [self]. by rewrite <- Hb.
Qed.

Lemma X7_probe_success_is_cached_witness :
  let cur := sample_cursor (Returns tt) ["master"; "tempdb"; "d"] (Returns tt) (Returns tt) in
  let conn := sample_conn 1 (Returns tt) (Returns cur) in
  let w0 := __init__ None None ∅ (sample_config [("host", "h"); ("database", "d")]) in
  let w := {| self := with_conns {["None:h:None:None:master:SQL Server" := conn]} (self w0);
              trace := [] |} in
  exists w2,
    _check_db_exists w = (Return (true, "h - d"), w2) /\
    trace w2 = [ConnCursor conn; Execute DATABASE_EXISTS_QUERY; CursorClose cur] /\
    _check_db_exists w2 = (Return (true, "h - d"), w2).
Proof.
  intros cur conn w0 w.
  exact (X7_probe_success_is_cached w cur
           (snd (get_cursor None (Some DEFAULT_DATABASE) w)) eq_refl eq_refl eq_refl).
Defined.

(** X8. Once it has its cursor, a first invocation of [_check_db_exists]
    returns whatever the cursor does: it executes the catalog query once,
    logs an error when the query or the iteration raises, always calls the
    cursor's [close()] last (a failure of which is a warning), sets the cache
    and leaves the pool and the configuration as they are; its answer is
    [False] whenever the query or the iteration raised. *)
Theorem X8_probe_returns_and_closes_cursor w cur w1 :
  existing_databases (self w) = None ->
  get_cursor None (Some DEFAULT_DATABASE) w = (Return cur, w1) ->
  exists b w2,
    _check_db_exists w = (Return (b, probe_context (self w)), w2) /\
    (probe_failure cur <> None -> b = false) /\
    (exists evs,
       trace w2 = trace w1 ++ Execute DATABASE_EXISTS_QUERY :: evs ++ cursor_close_events cur /\
       forall e, e ∈ evs -> exists lvl f args, e = Log lvl f args) /\
    existing_databases (self w2) = Some (probe_dict cur) /\
    _conns (self w2) = _conns (self w) /\
    instance (self w2) = instance (self w).
Proof.
  intros Hnone Hcur. rewrite (check_db_exists_first w cur w1 Hnone Hcur).
  do 2 eexists. split; [reflexivity|]. cbn [self trace]. repeat split.
  - by destruct (probe_failure cur).
  - unfold probe_events. eexists. split; [reflexivity|].
    intros e He. destruct (probe_failure cur); [|by apply elem_of_nil in He].
    apply list_elem_of_singleton in He as ->. by do 3 eexists.
Qed.

Lemma X8_probe_returns_and_closes_cursor_witness :
  let cur := sample_cursor (Returns tt) ["master"] (Throws "Error('lost')")
               (Throws "Error('closed')") in
  let conn := sample_conn 1 (Returns tt) (Returns cur) in
  let w0 := __init__ None None ∅ (sample_config [("host", "h")]) in
  let w := {| self := with_conns {["None:h:None:None:master:SQL Server" := conn]} (self w0);
              trace := [] |} in
  exists b w2,
    _check_db_exists w = (Return (b, "h - master"), w2) /\
    b = false /\
    existing_databases (self w2) = Some (recorded ["master"] ∅) /\
    _conns (self w2) = _conns (self w).
Proof.
  intros cur conn w0 w.
  destruct (X8_probe_returns_and_closes_cursor w cur
              (snd (get_cursor None (Some DEFAULT_DATABASE) w)) eq_refl eq_refl)
    as (b & w2 & Hrun & Hb & _ & Hcache & Hpool & _).
  exists b, w2. split; [exact Hrun|]. split; [apply Hb; discriminate|].
  split; [exact Hcache | exact Hpool].
Defined.

(** X9. Without a connection for the default database in the pool, a first
    invocation of [_check_db_exists] raises the [SQLConnectionError] of
    [get_cursor] before it touches anything: no query, nothing recorded, and
    the cache stays unset. *)
Theorem X9_probe_without_connection w :
  existing_databases (self w) = None ->
  _conns (self w) !! _conn_key (self w) None (Some DEFAULT_DATABASE) = None ->
  _check_db_exists w
  = (Raise (SQLConnectionError
              ("Cannot find an opened connection for host: " +:+
               fmt (instance_get (instance (self w)) (Some "host")))), w) /\
  existing_databases (self (snd (_check_db_exists w))) = None.
Proof.
  intros Hnone Hkey.
  unfold _check_db_exists. rewrite bind_get_self. cbv zeta.
  rewrite Hnone. unfold bind. by rewrite get_cursor_run, Hkey.
Qed.

Lemma X9_probe_without_connection_witness :
  let conn := sample_conn 1 (Returns tt) (Throws "Error('x')") in
  let w0 := __init__ None None ∅ (sample_config [("host", "h"); ("database", "d")]) in
  let w := {| self := with_conns {["None:h:None:None:d:SQL Server" := conn]} (self w0);
              trace := [] |} in
  _check_db_exists w
  = (Raise (SQLConnectionError "Cannot find an opened connection for host: h"), w) /\
  existing_databases (self (snd (_check_db_exists w))) = None.
Proof.
  intros conn w0 w. exact (X9_probe_without_connection w eq_refl eq_refl).
Defined.

(** ** [check_database] *)

Lemma check_db_exists_no_cursor w e w1 :
  existing_databases (self w) = None ->
  get_cursor None (Some DEFAULT_DATABASE) w = (Raise e, w1) ->
  _check_db_exists w = (Raise e, w1).
Proof.
  intros Hnone Hcur. unfold _check_db_exists. rewrite bind_get_self. cbv zeta.
  rewrite Hnone. unfold bind. by rewrite Hcur.
Qed.

Section CheckDatabase.
Context {cm : CaseMapping}.
Variables adodbapi pyodbc : driver_module.

Abbreviation master_key w := (_conn_key (self w) None (Some DEFAULT_DATABASE)).
Abbreviation master_info w := (_get_access_info (self w) None (Some DEFAULT_DATABASE)).
Abbreviation dial_master := (open_connect adodbapi pyodbc None (Some DEFAULT_DATABASE)).

Lemma check_database_unfold w :
  check_database adodbapi pyodbc w =
  bind (open_db_connections adodbapi pyodbc None (Some DEFAULT_DATABASE))
       (fun _ => bind _check_db_exists
                   (fun r => bind (close_db_connections None (Some DEFAULT_DATABASE))
                               (fun _ => ret r))) w.
Proof. reflexivity. Qed.

(** After the connection is open, the probe and the closing call. *)
Lemma check_database_opened w rc w1 :
  dial_master w = (Return rc, w1) ->
  check_database adodbapi pyodbc w =
  let opened :=
    {| self := with_conns (<[master_key w := rc]> (_conns (self w))) (self w);
       trace := trace w1 ++ ServiceCheck OK (host (master_info w)) (database (master_info w))
                                  None ::
                replace_events (_conns (self w) !! master_key w) |} in
  match _check_db_exists opened with
  | (Return r, w2) =>
      (Return r,
       {| self := with_conns (pool_after_close (master_key w) rc (_conns (self w2))) (self w2);
          trace := trace w2 ++ conn_close_events rc |})
      
  | (Raise e, w2) => (Raise e, w2)
  end.
Proof.
  intros Hdial. rewrite check_database_unfold. unfold bind at 1.
  rewrite open_db_connections_run, Hdial. cbv zeta. unfold bind at 1.
  set (opened := {| self := _; trace := _ |}).
  assert (forall w2, _conns (self w2) !! master_key w = Some rc ->
            instance (self w2) = instance (self w) ->
            close_db_connections None (Some DEFAULT_DATABASE) w2
            = (Return tt,
               {| self := with_conns (pool_after_close (master_key w) rc (_conns (self w2)))
                            (self w2);
                  trace := trace w2 ++ conn_close_events rc |})) as Hclose.
  { intros w2 Hk Hi. rewrite close_db_connections_run. cbv zeta.
    assert (_conn_key (self w2) None (Some DEFAULT_DATABASE) = master_key w) as ->.
    { unfold _conn_key, _get_access_info. by rewrite Hi. }
    rewrite Hk. unfold pool_after_close, conn_close_events, extend.
    destruct (conn_close rc) as [[]|r]; [done|].
    f_equal. f_equal. destruct w2 as [[] t]. cbn in Hk |- *.
    unfold with_conns. cbn. f_equal. symmetry. by apply insert_id. }
  destruct (existing_databases (self w)) as [m|] eqn:Hcache.
  - rewrite (check_db_exists_cached_value m opened) by done.
    unfold bind. rewrite Hclose; [done| |done].
    subst opened. cbn. apply lookup_insert_eq.
  - destruct (get_cursor None (Some DEFAULT_DATABASE) opened) as [[cur|e] wc] eqn:Hcur.
    + rewrite (check_db_exists_first opened cur wc) by done.
      unfold bind. rewrite Hclose; [done| |done].
      subst opened. cbn. apply lookup_insert_eq.
    + by rewrite (check_db_exists_no_cursor opened e wc).
Qed.

Lemma opened_get_cursor w rc (t : list event) :
  get_cursor None (Some DEFAULT_DATABASE)
    {| self := with_conns (<[master_key w := rc]> (_conns (self w))) (self w); trace := t |}
  = (match conn_cursor rc with
     | Returns cur => Return cur
     | Throws r => Raise (DriverError r)
     end,
     {| self := with_conns (<[master_key w := rc]> (_conns (self w))) (self w);
        trace := t ++ [ConnCursor rc] |}).
Proof.
  rewrite get_cursor_run. cbn [self]. rewrite conn_key_with_conns.
  cbn [_conns with_conns]. rewrite lookup_insert_eq. by destruct (conn_cursor rc).
Qed.

(** X10. [check_database] on an object without cached result, when the driver
    hands out a connection whose [cursor()] returns: the call returns, even
    when the catalog query fails (the answer is then [False]); the answer
    and the context are those of the probe for the configured database; the
    connection opened for ['master'] is the one probed and the one closed
    afterwards; and the entry is evicted when its [close()] returns and kept
    when it raises. *)
Theorem X10_check_database_probes_and_closes w rc w1 cur :
  existing_databases (self w) = None ->
  dial_master w = (Return rc, w1) ->
  conn_cursor rc = Returns cur ->
  exists w3,
    check_database adodbapi pyodbc w
    = (Return (match probe_failure cur with
               | Some _ => false
               | None =>
                   in_dict (database (_get_access_info (self w) (Some DEFAULT_DB_KEY) None))
                           (probe_dict cur)
               end, probe_context (self w)), w3) /\
    trace w3 =
      trace w1 ++
      [ServiceCheck OK (host (master_info w)) (database (master_info w)) None] ++
      replace_events (_conns (self w) !! master_key w) ++
      [ConnCursor rc] ++ probe_events (self w) cur ++ conn_close_events rc /\
    existing_databases (self w3) = Some (probe_dict cur) /\
    (conn_close rc = Returns tt ->
     _conns (self w3) = delete (master_key w) (_conns (self w))) /\
    (forall r, conn_close rc = Throws r ->
               _conns (self w3) = <[master_key w := rc]> (_conns (self w))).
Proof.
  intros Hnone Hdial Hcur. rewrite (check_database_opened w rc w1 Hdial). cbv zeta.
  erewrite check_db_exists_first; [|exact Hnone|by rewrite opened_get_cursor, Hcur].
  eexists. split; [reflexivity|]. cbn [self trace _conns with_conns with_existing_databases
    existing_databases]. unfold pool_after_close. repeat split.
  - by rewrite <- !app_assoc.
  - intros ->. by rewrite delete_insert_eq.
  - intros r ->. by rewrite insert_insert_eq.
Qed.

(** X11. [check_database] when the [cursor()] of the connection it opened
    raises: the driver's exception comes out as it is, and the closing call
    is skipped, so the connection stays in the pool and its [close()] is not
    called; the cache stays unset. *)
Theorem X11_check_database_leaves_connection w rc w1 r :
  existing_databases (self w) = None ->
  dial_master w = (Return rc, w1) ->
  conn_cursor rc = Throws r ->
  exists w3,
    check_database adodbapi pyodbc w = (Raise (DriverError r), w3) /\
    trace w3 =
      trace w1 ++
      [ServiceCheck OK (host (master_info w)) (database (master_info w)) None] ++
      replace_events (_conns (self w) !! master_key w) ++ [ConnCursor rc] /\
    _conns (self w3) = <[master_key w := rc]> (_conns (self w)) /\
    existing_databases (self w3) = None.
Proof.
  intros Hnone Hdial Hcur. rewrite (check_database_opened w rc w1 Hdial). cbv zeta.
  erewrite check_db_exists_no_cursor; [|exact Hnone|by rewrite opened_get_cursor, Hcur].
  eexists. split; [reflexivity|]. cbn. repeat split; [|done].
  by rewrite <- !app_assoc.
Qed.

(** X12. [check_database] on an object with a cached result still opens a
    connection for ['master'] and closes it, but asks it nothing: no cursor,
    no query; the answer is read from the cache, which stays as it is. *)
Theorem X12_check_database_cached w rc w1 m :
  existing_databases (self w) = Some m ->
  dial_master w = (Return rc, w1) ->
  exists w3,
    check_database adodbapi pyodbc w
    = (Return (in_dict (database (_get_access_info (self w) (Some DEFAULT_DB_KEY) None)) m,
               probe_context (self w)), w3) /\
    trace w3 =
      trace w1 ++
      [ServiceCheck OK (host (master_info w)) (database (master_info w)) None] ++
      replace_events (_conns (self w) !! master_key w) ++ conn_close_events rc /\
    existing_databases (self w3) = Some m.
Proof.
  intros Hm Hdial. rewrite (check_database_opened w rc w1 Hdial). cbv zeta.
  rewrite (check_db_exists_cached_value m) by done.
  eexists. split; [reflexivity|]. cbn. split; [|done]. by rewrite <- !app_assoc.
Qed.

(** X13. When opening the connection fails, [check_database] fails with the
    [SQLConnectionError] of [open_db_connections] and does nothing more:
    the probe is not run and the object is as before. *)
Theorem X13_check_database_open_failure w err w' :
  open_db_connections adodbapi pyodbc None (Some DEFAULT_DATABASE) w = (Raise err, w') ->
  check_database adodbapi pyodbc w = (Raise err, w') /\
  (exists message, err = SQLConnectionError message) /\
  self w' = self w.
Proof.
  intros Hopen. rewrite check_database_unfold. unfold bind at 1. rewrite Hopen.
  split; [done|]. revert Hopen. rewrite open_db_connections_run. cbv zeta.
  pose proof (keeps_open_connect adodbapi pyodbc None (Some DEFAULT_DATABASE) w) as Hk.
  destruct (dial_master w) as [[rc|e] w1]; [done|]. cbn [snd] in Hk.
  intros [= <- <-]. split; [by eexists|done].
Qed.
End CheckDatabase.

Lemma X10_check_database_probes_and_closes_witness :
  let cur := sample_cursor (Returns tt) ["master"; "d"] (Returns tt) (Returns tt) in
  let new := sample_conn 2 (Returns tt) (Returns cur) in
  let w := __init__ (working_driver new) None ∅
             (sample_config [("host", "h"); ("database", "d")]) in
  exists w3,
    check_database (working_driver new) None w = (Return (true, "h - d"), w3) /\
    existing_databases (self w3) = Some (recorded ["master"; "d"] ∅) /\
    _conns (self w3) = delete "None:h:None:None:master:SQL Server" ∅.
Proof.
  intros cur new w.
  destruct (X10_check_database_probes_and_closes (working_driver new) None w new
              (snd (open_connect (working_driver new) None None (Some DEFAULT_DATABASE) w))
              cur)
    as (w3 & Hrun & _ & Hcache & Hpool & _);
    [reflexivity | vm_compute; reflexivity | reflexivity |].
  exists w3. split; [exact Hrun|]. split; [exact Hcache | exact (Hpool eq_refl)].
Defined.

Lemma X11_check_database_leaves_connection_witness :
  let new := sample_conn 2 (Returns tt) (Throws "Error('no cursor')") in
  let w := __init__ (working_driver new) None ∅ (sample_config [("host", "h")]) in
  exists w3,
    check_database (working_driver new) None w
    = (Raise (DriverError "Error('no cursor')"), w3) /\
    _conns (self w3) = <["None:h:None:None:master:SQL Server" := new]> ∅ /\
    existing_databases (self w3) = None.
Proof.
  intros new w.
  destruct (X11_check_database_leaves_connection (working_driver new) None w new
              (snd (open_connect (working_driver new) None None (Some DEFAULT_DATABASE) w))
              "Error('no cursor')")
    as (w3 & Hrun & _ & Hpool & Hcache);
    [reflexivity | vm_compute; reflexivity | reflexivity |].
  exists w3. split; [exact Hrun|]. split; [exact Hpool | exact Hcache].
Defined.

Lemma X12_check_database_cached_witness :
  let new := sample_conn 2 (Returns tt) (Throws "Error('no cursor')") in
  let w0 := __init__ (working_driver new) None ∅
              (sample_config [("host", "h"); ("database", "d")]) in
  let w := {| self := with_existing_databases (Some {["d" := true]}) (self w0);
              trace := [] |} in
  exists w3,
    check_database (working_driver new) None w = (Return (true, "h - d"), w3) /\
    trace w3 =
      [Log DEBUG "Connection string (before password) %s"
           [Str (Some "Provider=SQLOLEDB;Data Source=h;Initial Catalog=master;")];
       Connect "adodbapi"
         "Provider=SQLOLEDB;Data Source=h;Initial Catalog=master;Integrated Security=SSPI;" 5;
       ServiceCheck OK (Some "h") (Some "master") None;
       ConnClose new].
Proof.
  intros new w0 w.
  destruct (X12_check_database_cached (working_driver new) None w new
              (snd (open_connect (working_driver new) None None (Some DEFAULT_DATABASE) w))
              {["d" := true]})
    as (w3 & Hrun & Htrace & _); [reflexivity | vm_compute; reflexivity |].
  exists w3. split; [exact Hrun | exact Htrace].
Defined.

Lemma X13_check_database_open_failure_witness :
  let w := __init__ (failing_driver "Error('timeout')") None ∅
             (sample_config [("host", "h")]) in
  let r := open_db_connections (failing_driver "Error('timeout')") None None
             (Some DEFAULT_DATABASE) w in
  check_database (failing_driver "Error('timeout')") None w
  = (Raise (SQLConnectionError
              "Unable to connect to SQL Server for instance h - master: Error('timeout')"),
     snd r) /\
  self (snd r) = self w.
Proof.
  intros w r.
  destruct (X13_check_database_open_failure (failing_driver "Error('timeout')") None w
              (SQLConnectionError
                 "Unable to connect to SQL Server for instance h - master: Error('timeout')")
              (snd r)) as (Hrun & _ & Hself); [vm_compute; reflexivity|].
  split; [exact Hrun | exact Hself].
Defined.

(** ** More on the connection key and the builders *)

Lemma colon_free_fields i :
  colon_free i = true ->
  PyStr.mem ":" (fmt (dsn i)) = false /\ PyStr.mem ":" (fmt (host i)) = false /\
  PyStr.mem ":" (fmt (username i)) = false /\ PyStr.mem ":" (fmt (password i)) = false /\
  PyStr.mem ":" (fmt (database i)) = false /\ PyStr.mem ":" (fmt (driver i)) = false.
Proof.
  unfold colon_free, rendered. cbn [forallb]. rewrite !andb_true_iff, !negb_true_iff.
  tauto.
Qed.

Lemma conn_key_split c db_key db_name :
  colon_free (_get_access_info c db_key db_name) = true ->
  PyStr.split ":" (_conn_key c db_key db_name)
  = rendered (_get_access_info c db_key db_name).
Proof.
  intros H. apply colon_free_fields in H as (H1 & H2 & H3 & H4 & H5 & H6).
  unfold _conn_key, rendered. cbv zeta.
  rewrite !PyStrFacts.split_join by done. by rewrite PyStrFacts.split_absent.
Qed.

Lemma conn_key_of_rendered c db_key db_name :
  _conn_key c db_key db_name
  = match rendered (_get_access_info c db_key db_name) with
    | [a; b; c; d; e; f] =>
        a +:+ ":" +:+ b +:+ ":" +:+ c +:+ ":" +:+ d +:+ ":" +:+ e +:+ ":" +:+ f
    | _ => ""
    end.
Proof. reflexivity. Qed.

(** X14. As long as no rendered field has a [":"] in it, two requests get the
    same connection key exactly when their six rendered fields (DSN, host,
    user name, password, database, driver) are the same: the pool does not
    mix up two such access infos, and does not open twice for one. *)
Theorem X14_conn_key_injective c1 db_key1 db_name1 c2 db_key2 db_name2 :
  let i1 := _get_access_info c1 db_key1 db_name1 in
  let i2 := _get_access_info c2 db_key2 db_name2 in
  colon_free i1 = true ->
  colon_free i2 = true ->
  _conn_key c1 db_key1 db_name1 = _conn_key c2 db_key2 db_name2
  <-> rendered i1 = rendered i2.
Proof.
  intros i1 i2 H1 H2. split.
  - intros Hkey. subst i1 i2. rewrite <- !conn_key_split by done. by rewrite Hkey.
  - intros Hr. rewrite !conn_key_of_rendered. subst i1 i2. by rewrite Hr.
Qed.

Lemma X14_conn_key_injective_witness :
  let c1 := self (__init__ None None ∅
                    (sample_config [("host", "h"); ("database", "d"); ("other", "e")])) in
  let c2 := self (__init__ None None ∅ (sample_config [("host", "h")])) in
  (_conn_key c1 (Some "database") None = _conn_key c2 None (Some "d")) /\
  (_conn_key c1 (Some "database") None <> _conn_key c1 (Some "other") None).
Proof.
  intros c1 c2. split.
  - apply (X14_conn_key_injective c1 (Some "database") None c2 None (Some "d"));
      reflexivity.
  - intros Hkey.
    apply (X14_conn_key_injective c1 (Some "database") None c1 (Some "other") None)
      in Hkey; [|reflexivity|reflexivity].
    vm_compute in Hkey. discriminate Hkey.
Defined.

Lemma split_length sep s : length (PyStr.split sep s) = S (PyStr.count sep s).
Proof.
  induction s as [|x s IH]; [done|]. cbn [PyStr.split PyStr.count].
  destruct (Ascii.eqb x sep); cbn [length]; [by rewrite IH|].
  destruct (PyStr.split sep s); [done|]. cbn [length] in *. lia.
Qed.

Lemma unpack6_arity l w :
  (length l = 6 -> exists i, unpack6 l w = (Return i, w)) /\
  (length l <> 6 -> exists message, unpack6 l w = (Raise (ValueError message), w)).
Proof.
  unfold unpack6.
  destruct l as [|a [|b [|c [|d [|e [|f [|g l]]]]]]]; cbn [length];
    (split; intros Hl); try lia; try (by eexists); case_decide; by eexists.
Qed.

(** X15. A builder given a connection key takes it apart on [":"] and needs
    exactly six pieces: with five colons in the key the odbc builder
    returns, with any other number both builders raise [ValueError] before
    they record or read anything else. *)
Theorem X15_builder_key_arity {cm : CaseMapping} db_key db_name key w :
  key <> "" ->
  (PyStr.count ":" key = 5 ->
   exists s w', _conn_string_odbc db_key (Some key) db_name w = (Return s, w')) /\
  (PyStr.count ":" key <> 5 ->
   exists message,
     _conn_string_odbc db_key (Some key) db_name w = (Raise (ValueError message), w) /\
     _conn_string_adodbapi db_key (Some key) db_name w = (Raise (ValueError message), w)).
Proof.
  intros Hkey.
  assert (truthy (Some key) = true) as Ht by (by destruct key).
  pose proof (split_length ":" key) as Hlen.
  destruct (unpack6_arity (PyStr.split ":" key) w) as [Hok Hbad].
  unfold _conn_string_odbc, _conn_string_adodbapi, conn_string_info. rewrite Ht.
  cbn [fmt]. split; intros Hcount.
  - destruct Hok as [i Hi]; [lia|]. unfold bind at 1. rewrite Hi.
    unfold bind, log, emit, ret. by do 2 eexists.
  - destruct Hbad as [message Hm]; [lia|]. exists message.
    unfold bind at 1 3. by rewrite Hm.
Qed.

Lemma X15_builder_key_arity_witness :
  let w := __init__ None None ∅ (sample_config [("host", "h")]) in
  (exists s w', _conn_string_odbc None (Some "d:h:u:p:db:dr") None w = (Return s, w')) /\
  (exists message,
     _conn_string_odbc None (Some "h:u:p") None w = (Raise (ValueError message), w) /\
     _conn_string_adodbapi None (Some "h:u:p") None w = (Raise (ValueError message), w)).
Proof.
  intros w. split.
  - refine (proj1 (X15_builder_key_arity None None "d:h:u:p:db:dr" w _) eq_refl).
    discriminate.
  - refine (proj2 (X15_builder_key_arity None None "h:u:p" w _) _); [discriminate|].
    vm_compute. discriminate.
Defined.

(** X16. The odbc builder called without key never raises. It puts together
    the DSN, DRIVER, Server, Database and UID segments of the resolved
    access info, each left out when its value is [None] or empty, writes
    that string to the debug log, and only then appends the PWD segment: the
    logged string is the returned one without its PWD segment. *)
Theorem X16_odbc_logs_before_password db_key db_name w :
  let i := _get_access_info (self w) db_key db_name in
  let logged :=
    segment "DSN" (dsn i) +:+ segment "DRIVER" (driver i) +:+ segment "Server" (host i) +:+
    segment "Database" (database i) +:+ segment "UID" (username i) in
  _conn_string_odbc db_key None db_name w
  = (Return (logged +:+ segment "PWD" (password i)),
     extend w [Log DEBUG "Connection string (before password) %s" [Str (Some logged)]]).
Proof.
  cbv zeta. unfold _conn_string_odbc, conn_string_info. cbn [truthy].
  rewrite bind_assoc, bind_get_self. unfold bind at 1. cbn [ret].
  unfold bind, log, emit, ret, extend, segment.
  generalize (_get_access_info (self w) db_key db_name). intros i.
  destruct (truthy (dsn i)), (truthy (driver i)), (truthy (host i)),
    (truthy (database i)), (truthy (username i)), (truthy (password i));
    cbn [String.append]; rewrite ?PyStrFacts.append_assoc, ?PyStrFacts.append_nil_r;
    cbn [String.append]; reflexivity.
Qed.

(** X17. The adodbapi builder called without key, once the provider is
    selected: it writes Provider, Data Source and Initial Catalog (an absent
    host or database is written as [None]) and the User ID segment to the
    debug log, and only then appends the Password segment and, when neither
    user name nor password is set, the integrated-security marker. *)
Theorem X17_adodbapi_logs_before_password {cm : CaseMapping} db_key db_name w provider w1 :
  _get_adoprovider w = (Return provider, w1) ->
  let i := _get_access_info (self w) db_key db_name in
  let logged :=
    "Provider=" +:+ provider +:+ ";Data Source=" +:+ fmt (host i) +:+
    ";Initial Catalog=" +:+ fmt (database i) +:+ ";" +:+ segment "User ID" (username i) in
  _conn_string_adodbapi db_key None db_name w
  = (Return (logged +:+ segment "Password" (password i) +:+
             (if negb (truthy (username i)) && negb (truthy (password i))
              then "Integrated Security=SSPI;" else "")),
     extend w1 [Log DEBUG "Connection string (before password) %s" [Str (Some logged)]]).
Proof.
  intros Hprov. cbv zeta. unfold _conn_string_adodbapi, conn_string_info. cbn [truthy].
  rewrite bind_assoc, bind_get_self. unfold bind at 1. cbn [ret].
  unfold bind at 1. rewrite Hprov.
  unfold bind, log, emit, ret, extend, segment.
  generalize (_get_access_info (self w) db_key db_name). intros i.
  destruct (truthy (username i)), (truthy (password i)); cbn [negb andb];
    rewrite ?PyStrFacts.append_assoc, ?PyStrFacts.append_nil_r;
    cbn [String.append]; rewrite ?PyStrFacts.append_assoc, ?PyStrFacts.append_nil_r;
    reflexivity.
Qed.

Lemma X17_adodbapi_logs_before_password_witness :
  let w := __init__ None None ∅
             (sample_config [("dsn", "prod"); ("username", "u"); ("password", "p")]) in
  _conn_string_adodbapi (Some "database") None None w
  = (Return "Provider=SQLOLEDB;Data Source=None;Initial Catalog=None;User ID=u;Password=p;",
     extend w
       [Log DEBUG "Connection string (before password) %s"
            [Str (Some
                    "Provider=SQLOLEDB;Data Source=None;Initial Catalog=None;User ID=u;")]]).
Proof.
  intros w.
  exact (X17_adodbapi_logs_before_password (Some "database") None w "SQLOLEDB" w eq_refl).
Defined.

Lemma conn_string_info_of_key db_key db_name w :
  all_set (_get_access_info (self w) db_key db_name) = true ->
  colon_free (_get_access_info (self w) db_key db_name) = true ->
  conn_string_info db_key (Some (_conn_key (self w) db_key db_name)) db_name w
  = conn_string_info db_key None db_name w.
Proof.
  intros Hset Hfree. unfold conn_string_info.
  assert (truthy (Some (_conn_key (self w) db_key db_name)) = true) as ->.
  { unfold _conn_key. cbv zeta. by destruct (fmt (dsn _)). }
  cbn [fmt truthy]. rewrite conn_key_split by done. rewrite bind_get_self.
  unfold rendered, unpack6, ret. f_equal. f_equal.
  destruct (_get_access_info (self w) db_key db_name) as [[a|] [b|] [c|] [d|] [e|] [f|]];
    done.
Qed.

Lemma bind_ext_l {A B} (m1 m2 : M A) (k : A -> M B) w :
  m1 w = m2 w -> bind m1 k w = bind m2 k w.
Proof. unfold bind. by intros ->. Qed.

(** X18. When every field of the resolved access info is set and none has a
    [":"] in it, a builder given the connection key does what it does
    without key: same string, same debug record. *)
Theorem X18_builders_from_key {cm : CaseMapping} db_key db_name w :
  all_set (_get_access_info (self w) db_key db_name) = true ->
  colon_free (_get_access_info (self w) db_key db_name) = true ->
  let key := _conn_key (self w) db_key db_name in
  _conn_string_odbc db_key (Some key) db_name w = _conn_string_odbc db_key None db_name w /\
  _conn_string_adodbapi db_key (Some key) db_name w
  = _conn_string_adodbapi db_key None db_name w.
Proof.
  intros Hset Hfree. cbv zeta. unfold _conn_string_odbc, _conn_string_adodbapi.
  split; apply bind_ext_l; by apply conn_string_info_of_key.
Qed.

Lemma X18_builders_from_key_witness :
  let w := __init__ None None ∅
             (sample_config [("dsn", "prod"); ("host", "h,1433"); ("username", "u");
                             ("password", "p"); ("database", "d");
                             ("driver", "ODBC Driver 17")]) in
  fst (_conn_string_odbc (Some "database")
         (Some "prod:h,1433:u:p:d:ODBC Driver 17") None w)
  = Return "DSN=prod;DRIVER=ODBC Driver 17;Server=h,1433;Database=d;UID=u;PWD=p;" /\
  fst (_conn_string_adodbapi (Some "database")
         (Some "prod:h,1433:u:p:d:ODBC Driver 17") None w)
  = Return "Provider=SQLOLEDB;Data Source=h,1433;Initial Catalog=d;User ID=u;Password=p;".
Proof.
  intros w.
  destruct (X18_builders_from_key (Some "database") None w eq_refl eq_refl) as [Ho Ha].
  cbv zeta in Ho, Ha. split.
  - change (Some "prod:h,1433:u:p:d:ODBC Driver 17")
      with (Some (_conn_key (self w) (Some "database") None)).
    rewrite Ho. vm_compute. reflexivity.
  - change (Some "prod:h,1433:u:p:d:ODBC Driver 17")
      with (Some (_conn_key (self w) (Some "database") None)).
    rewrite Ha. vm_compute. reflexivity.
Defined.

(** ** More on the selection and on opening *)

Lemma open_connect_route {cm : CaseMapping} db_key db_name w c wc :
  get_connector w = (Return c, wc) ->
  (c <> "adodbapi" ->
   forall a1 a2 p,
     open_connect a1 p db_key db_name w = open_connect a2 p db_key db_name w) /\
  (c = "adodbapi" ->
   forall a p1 p2,
     open_connect a p1 db_key db_name w = open_connect a p2 db_key db_name w).
Proof.
  intros Hc. unfold open_connect. split.
  - intros Hne a1 a2 p. rewrite !bind_get_self. cbv zeta. unfold bind at 1 4.
    rewrite Hc. apply String.eqb_neq in Hne. by rewrite Hne.
  - intros -> a p1 p2. rewrite !bind_get_self. cbv zeta. unfold bind at 1 4.
    by rewrite Hc.
Qed.

(** X19. The driver is chosen by comparing the selected connector with the
    exact string ['adodbapi']: when the selection returns anything else,
    also a value the validation accepted in another case such as
    ['ADODBAPI'], [open_db_connections] goes through pyodbc and does not
    depend on the adodbapi module; when it returns ['adodbapi'], the call
    does not depend on the pyodbc module. *)
Theorem X19_driver_chosen_by_exact_name {cm : CaseMapping} db_key db_name w c wc :
  get_connector w = (Return c, wc) ->
  (c <> "adodbapi" ->
   forall a1 a2 p,
     open_db_connections a1 p db_key db_name w
     = open_db_connections a2 p db_key db_name w) /\
  (c = "adodbapi" ->
   forall a p1 p2,
     open_db_connections a p1 db_key db_name w
     = open_db_connections a p2 db_key db_name w).
Proof.
  intros Hc. destruct (open_connect_route db_key db_name w c wc Hc) as [Hodbc Hado].
  split.
  - intros Hne a1 a2 p. rewrite !open_db_connections_run. cbv zeta.
    by rewrite (Hodbc Hne a1 a2 p).
  - intros Heq a p1 p2. rewrite !open_db_connections_run. cbv zeta.
    by rewrite (Hado Heq a p1 p2).
Qed.

Lemma X19_driver_chosen_by_exact_name_witness :
  let new := sample_conn 2 (Returns tt) (Throws "Error('no cursor')") in
  let w := __init__ (working_driver new) None {["connector" := "ADODBAPI"]}
             (sample_config [("host", "h")]) in
  connector (self w) = "ADODBAPI" /\
  open_db_connections (working_driver new) None (Some "database") None w
  = open_db_connections None None (Some "database") None w /\
  exists message,
    fst (open_db_connections None None (Some "database") None w)
    = Raise (SQLConnectionError message).
Proof.
  intros new w. split; [reflexivity|]. split.
  - refine (proj1 (X19_driver_chosen_by_exact_name (Some "database") None w "ADODBAPI" w
                     eq_refl) _ (working_driver new) None None).
    discriminate.
  - eexists. vm_compute. reflexivity.
Defined.

(** X20. On an object whose selection attributes are those [__init__] set,
    whatever the instance configuration has become since, the per-call
    selection returns only accepted values: an ADO provider whose upper case
    is one of the allowed providers, and a connector whose lower case is one
    of the available connectors or the literal ['adodbapi']. *)
Theorem X20_selection_returns_accepted_values {cm : CaseMapping} adodbapi pyodbc init_config instance_config v :
  let w0 := __init__ adodbapi pyodbc init_config instance_config in
  adoprovider (self v) = adoprovider (self w0) ->
  connector (self v) = connector (self w0) ->
  valid_connectors (self v) = valid_connectors (self w0) ->
  (forall p v', _get_adoprovider v = (Return p, v') ->
                PyStr.in_list (str_upper p) valid_adoproviders = true) /\
  (forall c v', get_connector v = (Return c, v') ->
                PyStr.in_list (str_lower c) (valid_connectors (self v)) = true \/
                c = "adodbapi").
Proof.
  intros w0 Hp Hc Hv.
  assert (PyStr.in_list (str_upper (adoprovider (self v))) valid_adoproviders = true)
    as Hprov.
  { rewrite Hp. subst w0.
    pose proof (init_adoprovider adodbapi pyodbc init_config instance_config) as H.
    cbv zeta in H. rewrite H.
    destruct (PyStr.in_list (str_upper _) valid_adoproviders) eqn:H'; [done|].
    by rewrite str_upper_ascii. }
  assert (PyStr.in_list (str_lower (connector (self v))) (valid_connectors (self v)) = true
          \/ connector (self v) = "adodbapi") as Hconn.
  { rewrite Hc, Hv. subst w0.
    destruct (init_connector adodbapi pyodbc init_config instance_config) as [_ H].
    cbv zeta in H. rewrite H.
    destruct (PyStr.in_list (str_lower _) (valid_connectors _)) eqn:H'; auto. }
  split.
  - intros p v'. rewrite get_adoprovider_run. cbv zeta.
    destruct (String.eqb _ (adoprovider (self v))) eqn:Heq.
    + apply String.eqb_eq in Heq. intros [= <- _]. rewrite Heq. exact Hprov.
    + destruct (PyStr.in_list (str_upper (default _ _)) valid_adoproviders) eqn:Hin.
      * destruct (fields (instance (self v)) !! "host"); [|intros [=]].
        intros [= <- _]. exact Hin.
      * intros [= <- _]. exact Hprov.
  - intros c v'. rewrite get_connector_run. cbv zeta.
    destruct (String.eqb _ (connector (self v))) eqn:Heq.
    + apply String.eqb_eq in Heq. intros [= <- _]. rewrite Heq. exact Hconn.
    + destruct (PyStr.in_list (str_lower (default _ _)) (valid_connectors (self v)))
        eqn:Hin.
      * destruct (fields (instance (self v)) !! "host"); [|intros [=]].
        intros [= <- _]. by left.
      * intros [= <- _]. exact Hconn.
Qed.

Lemma X20_selection_returns_accepted_values_witness :
  let drv := working_driver (sample_conn 1 (Returns tt) (Throws "Error('none')")) in
  let w0 := __init__ None drv {["connector" := "odbc"; "adoprovider" := "bogus"]}
              (sample_config [("host", "h")]) in
  let v := {| self := {| instance := sample_config [("host", "h"); ("connector", "mysql");
                                                   ("adoprovider", "msoledbsql")];
                         _conns := ∅; timeout := 5; existing_databases := None;
                         adoprovider := "SQLOLEDB"; valid_connectors := ["odbc"];
                         connector := "odbc" |};
              trace := [] |} in
  PyStr.in_list (str_upper "msoledbsql") valid_adoproviders = true /\
  (PyStr.in_list (str_lower "odbc") ["odbc"] = true \/ "odbc" = "adodbapi").
Proof.
  intros drv w0 v.
  destruct (X20_selection_returns_accepted_values None drv
              {["connector" := "odbc"; "adoprovider" := "bogus"]}
              (sample_config [("host", "h")]) v) as [Hp Hc];
    [vm_compute; reflexivity | vm_compute; reflexivity | vm_compute; reflexivity |].
  split.
  - exact (Hp "msoledbsql" (snd (_get_adoprovider v)) eq_refl).
  - exact (Hc "odbc" (snd (get_connector v)) eq_refl).
Defined.

Lemma scrub_absent pw message :
  (pw = None \/ exists p, pw = Some p /\ PyStr.contains p message = false) ->
  scrub pw message = message.
Proof.
  intros [->|(p & -> & Hp)]; [done|]. unfold scrub, PyStr.replace.
  destruct p as [|a p']; [by destruct message|].
  by apply (PyStrFacts.replace_from_absent _ _ a p').
Qed.

(** X21. When no password is configured, or the configured password does not
    occur in it, the message of a failed [open_db_connections] is left as
    built: ["Unable to connect to SQL Server for instance "], the host and
    database of the resolved access info joined by [" - "], [": "] and the
    [repr] of the exception caught. *)
Theorem X21_message_when_nothing_to_mask {cm : CaseMapping} adodbapi pyodbc db_key db_name w e w1 :
  let i := _get_access_info (self w) db_key db_name in
  let raw :=
    "Unable to connect to SQL Server for instance " +:+
    (fmt (host i) +:+ " - " +:+ fmt (database i)) +:+ ": " +:+ exn_repr e in
  let pw := instance_get (instance (self w)) (Some "password") in
  open_connect adodbapi pyodbc db_key db_name w = (Raise e, w1) ->
  pw = None \/ (exists p, pw = Some p /\ PyStr.contains p raw = false) ->
  open_db_connections adodbapi pyodbc db_key db_name w
  = (Raise (SQLConnectionError raw),
     extend w1 [ServiceCheck CRITICAL (host i) (database i) (Some raw)]).
Proof.
  intros i raw pw Hdial Hpw. rewrite open_db_connections_run, Hdial. cbv zeta.
  fold i pw. change (raw_message (self w) db_key db_name e) with raw.
  by rewrite scrub_absent.
Qed.

Lemma X21_message_when_nothing_to_mask_witness :
  let w := __init__ (failing_driver "Error('timeout')") None ∅
             (sample_config [("host", "h"); ("password", "s3cret")]) in
  let w1 := snd (open_connect (failing_driver "Error('timeout')") None
                   (Some "database") None w) in
  let raw := "Unable to connect to SQL Server for instance h - master: Error('timeout')" in
  open_db_connections (failing_driver "Error('timeout')") None (Some "database") None w
  = (Raise (SQLConnectionError raw),
     extend w1 [ServiceCheck CRITICAL (Some "h") (Some "master") (Some raw)]).
Proof.
  intros w w1 raw.
  apply (X21_message_when_nothing_to_mask (failing_driver "Error('timeout')") None
           (Some "database") None w (DriverError "Error('timeout')") w1).
  - vm_compute. reflexivity.
  - right. exists "s3cret". split; vm_compute; reflexivity.
Defined.

(** X22. When the [try] block of [open_db_connections] gets a handle, it has
    called [connect] once, on the adodbapi module when the selected connector
    is exactly ['adodbapi'] and on pyodbc otherwise, with the configured
    [connection_string] (followed by [";"] when not empty) in front of the
    string of the matching builder, and with the timeout of the object; the
    handle is what that call returned, and the call is the last thing
    recorded. *)
Theorem X22_connect_arguments {cm : CaseMapping} adodbapi pyodbc db_key db_name w rc w1 :
  open_connect adodbapi pyodbc db_key db_name w = (Return rc, w1) ->
  exists c wc s ws f,
    let ado := String.eqb c "adodbapi" in
    let cs := user_connection_string (self w) +:+ s in
    get_connector w = (Return c, wc) /\
    (if ado then _conn_string_adodbapi db_key None db_name wc
     else _conn_string_odbc db_key None db_name wc) = (Return s, ws) /\
    (if ado then adodbapi else pyodbc) = Some f /\
    f cs (timeout (self w)) = Returns rc /\
    w1 = extend ws [Connect (if ado then "adodbapi" else "odbc") cs (timeout (self w))].
Proof.
  unfold open_connect. rewrite bind_get_self. cbv zeta. unfold bind at 1.
  destruct (get_connector w) as [[c|e] wc]; [|done].
  assert (forall name (m : driver_module) cs t ws,
            connect name m cs t ws = (Return rc, w1) ->
            exists f, m = Some f /\ f cs t = Returns rc /\
                      w1 = extend ws [Connect name cs t]) as Hconnect.
  { intros name [f|] cs t ws; unfold connect; [|done].
    unfold call, bind, emit, extend. destruct (f cs t) as [rc'|r] eqn:Hf; [|done].
    cbn. intros [= -> <-]. by exists f. }
  destruct (String.eqb c "adodbapi") eqn:Hc; unfold bind.
  - destruct (_conn_string_adodbapi db_key None db_name wc) as [[s|e] ws] eqn:Hs; [|done].
    intros Hcon. apply Hconnect in Hcon as (f & Hm & Hf & Hw).
    exists c, wc, s, ws, f. cbv zeta. by rewrite Hc.
  - destruct (_conn_string_odbc db_key None db_name wc) as [[s|e] ws] eqn:Hs; [|done].
    intros Hcon. apply Hconnect in Hcon as (f & Hm & Hf & Hw).
    exists c, wc, s, ws, f. cbv zeta. by rewrite Hc.
Qed.

Lemma X22_connect_arguments_witness :
  let new := sample_conn 2 (Returns tt) (Throws "Error('no cursor')") in
  let w := __init__ None (working_driver new) {["connector" := "odbc"]}
             {| fields := {["host" := "h"; "connection_string" := "APP=agent"]};
                command_timeout := Some 30%Z |} in
  exists s ws,
    _conn_string_odbc (Some "database") None None w = (Return s, ws) /\
    snd (open_connect None (working_driver new) (Some "database") None w)
    = extend ws [Connect "odbc" ("APP=agent;" +:+ s) 30].
Proof.
  intros new w.
  destruct (X22_connect_arguments None (working_driver new) (Some "database") None w new
              (snd (open_connect None (working_driver new) (Some "database") None w)))
    as (c & wc & s & ws & f & Hc & Hs & _ & _ & Hw); [vm_compute; reflexivity|].
  cbv zeta in Hs, Hw.
  assert (c = "odbc" /\ wc = w) as [-> ->].
  { assert ((Return c, wc) = (Return "odbc", w)) as [= -> ->]; [|done].
    rewrite <- Hc. vm_compute. reflexivity. }
  exists s, ws. split; [exact Hs | exact Hw].
Defined.

(** ** The managed helpers *)

Lemma managed_unfold {cm : CaseMapping} adodbapi pyodbc {A} db_key db_name (body : M A) w :
  _open_managed_db_connections adodbapi pyodbc db_key db_name body w =
  match open_db_connections adodbapi pyodbc db_key db_name w with
  | (Return _, w1) =>
      match body w1 with
      | (Return a, w2) =>
          match close_db_connections db_key db_name w2 with
          | (Return _, w3) => (Return a, w3)
          | (Raise e, w3) => (Raise e, w3)
          end
      | (Raise e, w2) => (Raise e, w2)
      end
  | (Raise e, w1) => (Raise e, w1)
  end.
Proof.
  unfold _open_managed_db_connections, bind, ret.
  destruct (open_db_connections _ _ _ _ w) as [[[]|e] w1]; [|done].
  destruct (body w1) as [[a|e] w2]; [|done].
  by destruct (close_db_connections db_key db_name w2) as [[[]|e] w3].
Qed.

(** X23. [open_managed_default_connection] around a unit of work that leaves
    the object alone, on a pool without entry for the default key: when the
    work returns, the connection is closed after it and the result is the
    work's; the pool is then the one before the block when the handle's
    [close()] returns, and keeps the handle when it raises. When the work
    raises, its exception comes out and the closing call is skipped: the
    handle stays in the pool. *)
Theorem X23_managed_connection {cm : CaseMapping} adodbapi pyodbc {A} (body : M A) w w1 rc :
  _conns (self w) !! _conn_key (self w) (Some DEFAULT_DB_KEY) None = None ->
  open_db_connections adodbapi pyodbc (Some DEFAULT_DB_KEY) None w = (Return tt, w1) ->
  _conns (self w1) !! _conn_key (self w) (Some DEFAULT_DB_KEY) None = Some rc ->
  self (snd (body w1)) = self w1 ->
  let key := _conn_key (self w) (Some DEFAULT_DB_KEY) None in
  let w2 := snd (body w1) in
  match fst (body w1) with
  | Return a =>
      exists w3,
        open_managed_default_connection adodbapi pyodbc body w = (Return a, w3) /\
        trace w3 = trace w2 ++ conn_close_events rc /\
        _conns (self w3)
        = match conn_close rc with
          | Returns _ => _conns (self w)
          | Throws _ => <[key := rc]> (_conns (self w))
          end
  | Raise e =>
      open_managed_default_connection adodbapi pyodbc body w = (Raise e, w2) /\
      _conns (self w2) = <[key := rc]> (_conns (self w))
  end.
Proof.
  intros Hnone Hopen Hrc Hbody. cbv zeta.
  unfold open_managed_default_connection. rewrite !managed_unfold, Hopen.
  revert Hopen. rewrite open_db_connections_run. cbv zeta.
  destruct (open_connect adodbapi pyodbc (Some DEFAULT_DB_KEY) None w) as [[rc'|e] wd];
    [|done].
  intros [= <-]. cbn [self _conns with_conns] in Hrc. rewrite lookup_insert_eq in Hrc.
  injection Hrc as ->.
  destruct (body _) as [[a|e] w2] eqn:Hb; cbn [fst snd] in *.
  - rewrite close_db_connections_run. cbv zeta. rewrite Hbody. cbn [self].
    rewrite conn_key_with_conns. cbn [_conns with_conns]. rewrite lookup_insert_eq.
    unfold conn_close_events, extend.
    destruct (conn_close rc) as [[]|r]; eexists; (split; [reflexivity|]); cbn.
    + split; [reflexivity|]. by apply delete_insert_id.
    + split; [reflexivity|]. by rewrite Hbody.
  - split; [reflexivity|]. by rewrite Hbody.
Qed.

Lemma X23_managed_connection_witness :
  let new := sample_conn 2 (Returns tt) (Throws "Error('no cursor')") in
  let w := __init__ (working_driver new) None ∅ (sample_config [("host", "h")]) in
  exists w3,
    open_managed_default_connection (working_driver new) None
      (log INFO "collecting" []) w = (Return tt, w3) /\
    _conns (self w3) = ∅.
Proof.
  intros new w.
  pose proof (X23_managed_connection (working_driver new) None (log INFO "collecting" []) w
                (snd (open_db_connections (working_driver new) None
                        (Some DEFAULT_DB_KEY) None w))
                new eq_refl eq_refl eq_refl eq_refl) as H.
  cbv zeta in H. cbn [fst log emit] in H. destruct H as (w3 & Hrun & _ & Hpool).
  exists w3. split; [exact Hrun | exact Hpool].
Defined.

(** X24. [get_managed_cursor] around a unit of work, once the cursor for the
    default key is obtained: when the work returns, the cursor's [close()] is
    called after it, a failure of that call is a warning, and the result is
    the work's; when the work raises, its exception comes out and the cursor
    is not closed. Without connection for the default key the work is not
    run at all. *)
Theorem X24_managed_cursor {A} (body : cursor -> M A) w :
  match get_cursor (Some DEFAULT_DB_KEY) None w with
  | (Return cur, w1) =>
      match body cur w1 with
      | (Return a, w2) =>
          get_managed_cursor body w = (Return a, extend w2 (cursor_close_events cur))
      | (Raise e, w2) => get_managed_cursor body w = (Raise e, w2)
      end
  | (Raise e, w1) =>
      get_managed_cursor body w = (Raise e, w1) /\
      (_conns (self w) !! _conn_key (self w) (Some DEFAULT_DB_KEY) None = None ->
       w1 = w /\ e = SQLConnectionError (missing_message (self w)))
  end.
Proof.
  assert (get_managed_cursor body w =
          match get_cursor (Some DEFAULT_DB_KEY) None w with
          | (Return cur, w1) =>
              match body cur w1 with
              | (Return a, w2) => (Return a, extend w2 (cursor_close_events cur))
              | (Raise e, w2) => (Raise e, w2)
              end
          | (Raise e, w1) => (Raise e, w1)
          end) as ->.
  { unfold get_managed_cursor. unfold bind at 1.
    destruct (get_cursor (Some DEFAULT_DB_KEY) None w) as [[cur|e] w1]; [|done].
    unfold bind at 1. destruct (body cur w1) as [[a|e] w2]; [|done].
    unfold bind. by rewrite close_cursor_run. }
  pose proof (get_cursor_run (Some DEFAULT_DB_KEY) None w) as Hrun.
  destruct (get_cursor (Some DEFAULT_DB_KEY) None w) as [[cur|e] w1].
  - by destruct (body cur w1) as [[a|e] w2].
  - split; [done|]. intros Hnone. rewrite Hnone in Hrun. by injection Hrun as -> ->.
Qed.
